(** * GERAR_POLIGONO: KML points to merged square footprints

    A shallow embedding of [GERAR_POLIGONO.py]: the KML point extractor
    ([parse_kml]), the metric buffer ([create_square_polygon]), the polygon
    merger ([merge_intersecting_polygons]) and the KML writer
    ([create_output_kml]), followed by the properties of these functions.

    Python values are modelled as follows.
    - [float] is IEEE binary64, the kernel's primitive floats.
    - [str] is a [string] holding the UTF-8 bytes of the text.
    - An exception is a value of [exn]; a computation that may raise returns
      a [result].
    - [st.error(...)] appends an [st_event] to the log a function returns.
    - What the program calls but does not define (libm's cosine, the builtin
      [float()] and [int(_, 16)], shapely's [unary_union], simplekml's colour
      helpers) is a [Variable] of the section that uses it. *)

From Stdlib Require Import List String Ascii ZArith Bool Lia Floats.
From Stdlib Require Import DecimalString Permutation SetoidList SetoidPermutation.
From Stdlib Require Import RelationClasses Morphisms.
Import ListNotations.

Set Warnings "-register-all,-inexact-float".

Local Open Scope string_scope.
Local Open Scope list_scope.

(** ** Python runtime: exceptions and results *)

Module Py.

(** The exception classes that occur in the program's runs. *)
Inductive exn : Type :=
| ZeroDivisionError    (* float division by zero *)
| ValueError           (* float(), int(), math domain error, short ring *)
| OverflowError        (* int() of an infinite float *)
| AttributeError       (* None.strip() *)
| ParseError           (* xml.etree.ElementTree.ParseError *)
| GEOSException        (* shapely.errors.GEOSException *)
| OtherException (class : string).

Inductive result (A : Type) : Type :=
| Ok (a : A)
| Raise (e : exn).
Arguments Ok {A} a.
Arguments Raise {A} e.

Definition bind {A B : Type} (m : result A) (k : A -> result B) : result B :=
  match m with
  | Ok a => k a
  | Raise e => Raise e
  end.

Definition is_ok {A : Type} (m : result A) : bool :=
  match m with Ok _ => true | Raise _ => false end.

(** [None] of an oracle that returns [option] is the exception [e]. *)
Definition or_raise {A : Type} (e : exn) (o : option A) : result A :=
  match o with Some a => Ok a | None => Raise e end.

(** Streamlit's [st.error(prefix + str(e))]. *)
Inductive st_event : Type :=
| st_error (prefix : string) (e : exn).

End Py.
Import Py.

Notation "x <- m ;; k" := (bind m (fun x => k))
  (at level 61, m at next level, right associativity).

(** ** Python strings *)

Module Str.

Definition bytes (l : list nat) : list ascii := map ascii_of_nat l.

(** The UTF-8 encodings of the code points for which [str.isspace] holds:
    U+0009..U+000D, U+001C..U+0020, U+0085, U+00A0, U+1680, U+2000..U+200A,
    U+2028, U+2029, U+202F, U+205F and U+3000. *)
Definition whitespace : list (list ascii) :=
  map bytes
    ([[9]; [10]; [11]; [12]; [13]; [28]; [29]; [30]; [31]; [32];
      [194; 133]; [194; 160]; [225; 154; 128]]
     ++ map (fun k => [226; 128; 128 + k]) (seq 0 11)
     ++ [[226; 128; 168]; [226; 128; 169]; [226; 128; 175];
         [226; 129; 159]; [227; 128; 128]]).

Fixpoint starts_with (p l : list ascii) : bool :=
  match p, l with
  | [], _ => true
  | a :: p', b :: l' => Ascii.eqb a b && starts_with p' l'
  | _ :: _, [] => false
  end.

(** The length of the first pattern that [l] starts with. *)
Fixpoint leading (pats : list (list ascii)) (l : list ascii) : option nat :=
  match pats with
  | [] => None
  | p :: rest => if starts_with p l then Some (length p) else leading rest l
  end.

Fixpoint drop_leading (fuel : nat) (pats : list (list ascii)) (l : list ascii)
  : list ascii :=
  match fuel with
  | O => l
  | S fuel' =>
      match leading pats l with
      | Some n => drop_leading fuel' pats (skipn n l)
      | None => l
      end
  end.

Definition lstrip (l : list ascii) : list ascii :=
  drop_leading (length l) whitespace l.

Definition rstrip (l : list ascii) : list ascii :=
  rev (drop_leading (length l) (map (@rev ascii) whitespace) (rev l)).

(** [s.strip()] *)
Definition strip (s : string) : string :=
  string_of_list_ascii (rstrip (lstrip (list_ascii_of_string s))).

(** [s.split(sep)] for a one-character separator: never empty. *)
Fixpoint split (sep : ascii) (s : string) : list string :=
  match s with
  | EmptyString => [EmptyString]
  | String c rest =>
      if Ascii.eqb c sep then EmptyString :: split sep rest
      else match split sep rest with
           | field :: fields => String c field :: fields
           | [] => [String c EmptyString]
           end
  end.

(** [str(n)] of a non-negative [int]. *)
Definition of_nat (n : nat) : string := NilZero.string_of_uint (Nat.to_uint n).

(** How an f-string renders a value that is a [str] or [None]. *)
Definition format_opt (o : option string) : string :=
  match o with Some s => s | None => "None" end.

(** The slice [s[i:j]] of an ASCII string. *)
Definition slice (i j : nat) (s : string) : string := substring i (j - i) s.

End Str.

(** ** xml.etree.ElementTree *)

Module ET.

(** An element: its tag in Clark notation ([{namespace}local]), its text
    ([None] when the element has no character data before its first child)
    and its children in document order. *)
Inductive element : Type :=
| Element (tag : string) (text : option string) (children : list element).

Definition tag (e : element) : string :=
  match e with Element t _ _ => t end.
Definition text (e : element) : option string :=
  match e with Element _ x _ => x end.
Definition children (e : element) : list element :=
  match e with Element _ _ cs => cs end.

(** What [ET.parse] makes of the uploaded file. *)
Inductive document : Type :=
| WellFormed (root : element)
| Malformed.

(** [ET.parse(file_content).getroot()] *)
Definition parse (file_content : document) : result element :=
  match file_content with
  | WellFormed root => Ok root
  | Malformed => Raise ParseError
  end.

(** [e.iter()]: the element and its descendants, in document order. *)
Fixpoint iter (e : element) : list element :=
  match e with
  | Element _ _ cs => e :: flat_map iter cs
  end.

Definition has_tag (t : string) (e : element) : bool := String.eqb (tag e) t.

(** The path [.//t]: [e.iter(t)] without [e] itself. *)
Definition descendants (t : string) (e : element) : list element :=
  filter (has_tag t) (flat_map iter (children e)).

(** The path [t]: the children with tag [t]. *)
Definition child_elements (t : string) (e : element) : list element :=
  filter (has_tag t) (children e).

(** [e.findall('.//t')] *)
Definition findall_descendants (t : string) (e : element) : list element :=
  descendants t e.

(** [e.find('t')] *)
Definition find_child (t : string) (e : element) : option element :=
  hd_error (child_elements t e).

(** [e.find('.//t1/t2')]: the first [t2] child of a [t1] descendant. *)
Definition find_descendant_child (t1 t2 : string) (e : element)
  : option element :=
  hd_error (flat_map (child_elements t2) (descendants t1 e)).

End ET.
Import ET.

(** ** PointExtractor: [parse_kml] *)

(** [namespace = {'kml': 'http://www.opengis.net/kml/2.2'}]: the tag that the
    prefixed name [kml:local] stands for. *)
Definition kml (local : string) : string :=
  "{http://www.opengis.net/kml/2.2}" ++ local.

(** The dictionary appended for a placemark. [name] and [description] are the
    [.text] of an element, which is [None] for an element without text. *)
Module PM.
Record placemark : Type := Build {
  name : option string;
  description : option string;
  lat : float;
  lon : float;
  coords : string
}.
End PM.
Abbreviation placemark := PM.placemark.

Section PointExtractor.

(** The builtin [float(s)]; [None] when it raises [ValueError]. *)
Variable py_float : string -> option float.

Definition float_ (s : string) : result float := or_raise ValueError (py_float s).

(** [point.text.strip()] *)
Definition text_strip (point : element) : result string :=
  match text point with
  | Some t => Ok (Str.strip t)
  | None => Raise AttributeError
  end.

(** The body of the loop over the placemarks; [placemarks] is the list
    built so far. *)
Definition parse_placemark (pm : element) (placemarks : list placemark)
  : result (list placemark) :=
  match find_descendant_child (kml "Point") (kml "coordinates") pm with
  | Some point =>
      let name :=
        match find_child (kml "name") pm with
        | Some name_elem => text name_elem
        | None => Some "Sem nome"
        end in
      let description :=
        match find_child (kml "description") pm with
        | Some desc_elem => text desc_elem
        | None => Some ""
        end in
      coords_text <- text_strip point ;;
      let coords := Str.split "," coords_text in
      if (2 <=? length coords)%nat then
        lon <- float_ (nth 0 coords "") ;;
        lat <- float_ (nth 1 coords "") ;;
        Ok (placemarks ++ [PM.Build name description lat lon coords_text])
      else Ok placemarks
  | None => Ok placemarks
  end.

(** [for placemark in root.findall(...)]: the first exception ends the loop. *)
Fixpoint parse_placemarks (pms : list element) (placemarks : list placemark)
  : result (list placemark) :=
  match pms with
  | [] => Ok placemarks
  | pm :: rest =>
      placemarks' <- parse_placemark pm placemarks ;;
      parse_placemarks rest placemarks'
  end.

(** The [try] block. *)
Definition parse_kml_try (file_content : document)
  : result (list placemark * element) :=
  root <- ET.parse file_content ;;
  placemarks <-
    parse_placemarks (findall_descendants (kml "Placemark") root) [] ;;
  Ok (placemarks, root).

(** [parse_kml(file_content)]: the pair it returns and what it reports. *)
Definition parse_kml (file_content : document)
  : (option (list placemark) * option element) * list st_event :=
  match parse_kml_try file_content with
  | Ok (placemarks, root) => ((Some placemarks, Some root), [])
  | Raise e => ((None, None), [st_error "Erro ao processar KML: " e])
  end.

End PointExtractor.

(** ** Python floats and the [math] module *)

Local Open Scope float_scope.

(** [a / b] on floats: a zero divisor raises instead of giving an infinity. *)
Definition truediv (a b : float) : result float :=
  if b =? 0 then Raise ZeroDivisionError else Ok (a / b).

Module Math.

(** [math.pi] *)
Definition pi : float := 0x1.921fb54442d18p+1.

(** [math.radians(x)] is [x * (pi / 180.0)]. *)
Definition radians (x : float) : float := x * (pi / 180).

Section Cos.

(** The C library's [cos]. *)
Variable libm_cos : float -> float.

(** [math.cos(x)]: CPython calls libm and raises [ValueError] when the
    result is a NaN the argument was not, or an infinity for a finite
    argument. *)
Definition cos (x : float) : result float :=
  let r := libm_cos x in
  if is_nan r && negb (is_nan x) then Raise ValueError
  else if is_infinity r && is_finite x then Raise ValueError
  else Ok r.

End Cos.

End Math.

(** ** shapely geometries *)

Module Shapely.

(** A coordinate [(x, y)]; the program puts the latitude in [x]. *)
Definition coord : Type := float * float.

(** [a == b] on coordinate tuples, component by component: a NaN differs
    from itself. *)
Definition coord_eqb (a b : coord) : bool :=
  (fst a =? fst b) && (snd a =? snd b).

(** A [shapely.geometry.Polygon]: [poly.exterior.coords] and the rings of
    its holes. *)
Record polygon : Type := Polygon {
  exterior : list coord;
  interiors : list (list coord)
}.

(** Whether the ring constructor has to close the shell: its first and
    last coordinates differ. *)
Definition ring_closure (shell : list coord) : bool :=
  match shell with
  | [] => false
  | first :: _ => negb (coord_eqb first (last shell first))
  end.

(** [Polygon(shell)] for a shell of four or more coordinates (the program
    passes five): a shell that is not closed is closed by repeating its
    first coordinate, and GEOS refuses a ring whose first and last
    coordinates still differ, as they do when the first coordinate holds a
    NaN. *)
Definition Polygon_of_shell (shell : list coord) : result polygon :=
  let ring := if ring_closure shell then shell ++ firstn 1 shell else shell in
  if ring_closure ring then Raise GEOSException else Ok (Polygon ring []).

(** The geometry types other than polygons. *)
Inductive other_type : Type :=
| Point | LineString | LinearRing
| MultiPoint | MultiLineString | GeometryCollection.

(** What a set operation returns. *)
Inductive geometry : Type :=
| GPolygon (p : polygon)
| GMultiPolygon (geoms : list polygon)
| GOther (t : other_type).

(** [g.geom_type] *)
Definition geom_type (g : geometry) : string :=
  match g with
  | GPolygon _ => "Polygon"
  | GMultiPolygon _ => "MultiPolygon"
  | GOther Point => "Point"
  | GOther LineString => "LineString"
  | GOther LinearRing => "LinearRing"
  | GOther MultiPoint => "MultiPoint"
  | GOther MultiLineString => "MultiLineString"
  | GOther GeometryCollection => "GeometryCollection"
  end.

End Shapely.
Import Shapely.

(** ** MetricBuffer: [create_square_polygon] *)

Section MetricBuffer.

Variable libm_cos : float -> float.

(** The five vertices for the offsets [lat_offset] and [lon_offset]. *)
Definition square_vertices (lat lon lat_offset lon_offset : float)
  : list coord :=
  [ (lat - lat_offset, lon - lon_offset);
    (lat - lat_offset, lon + lon_offset);
    (lat + lat_offset, lon + lon_offset);
    (lat + lat_offset, lon - lon_offset);
    (lat - lat_offset, lon - lon_offset) ].

(** [radius_meters] is the slider's [int]; Python converts it to a float
    at each division, exactly for every integer up to 2^53. *)
Definition create_square_polygon (lat lon radius_meters : float)
  : result polygon :=
  lat_offset <- truediv radius_meters 111000 ;;
  c <- Math.cos libm_cos (Math.radians lat) ;;
  lon_offset <- truediv radius_meters (111000 * c) ;;
  let vertices := square_vertices lat lon lat_offset lon_offset in
  Polygon_of_shell vertices.

End MetricBuffer.

(** ** PolygonMerger: [merge_intersecting_polygons] *)

Section PolygonMerger.

(** [shapely.ops.unary_union] on a list of polygons. *)
Variable unary_union : list polygon -> result geometry.

Definition merge_intersecting_polygons (polygons : list polygon)
  : list polygon * list st_event :=
  match polygons with
  | [] => ([], [])
  | [_] => (polygons, [])
  | _ =>
      match unary_union polygons with
      | Ok (GMultiPolygon geoms) => (geoms, [])
      | Ok (GPolygon merged) => ([merged], [])
      | Ok (GOther _) => ([], [])
      | Raise e => (polygons, [st_error "Erro ao unir polígonos: " e])
      end
  end.

End PolygonMerger.

(** ** DocumentWriter: [create_output_kml] *)

(** [int(x)] of a float: truncation towards zero. *)
Definition int_of_float (x : float) : result Z :=
  match Prim2SF x with
  | S754_zero _ => Ok 0%Z
  | S754_finite s m e =>
      let magnitude :=
        match e with
        | Zneg k => Z.shiftr (Zpos m) (Zpos k)
        | _ => Z.shiftl (Zpos m) e
        end in
      Ok (if s then Z.opp magnitude else magnitude)
  | S754_infinity _ => Raise OverflowError
  | S754_nan => Raise ValueError
  end.

Module Kml.

(** What the program sets on a [kml.newpoint(...)]. *)
Record point_feature : Type := NewPoint {
  point_name : string;
  point_coords : list (float * float);
  iconstyle_color : string;
  iconstyle_scale : float
}.

(** What the program sets on a [kml.newpolygon(...)]. *)
Record polygon_feature : Type := NewPolygon {
  polygon_name : string;
  linestyle_color : string;
  linestyle_width : Z;
  polystyle_color : string;
  outerboundaryis : list (float * float)
}.

(** A [simplekml.Kml] document is the list of its features, in the order
    they were added. *)
Inductive feature : Type :=
| FPoint (p : point_feature)
| FPolygon (p : polygon_feature).

(** [simplekml.Color.blue] *)
Definition Color_blue : string := "ffff0000".

End Kml.
Import Kml.

Section DocumentWriter.

(** The builtin [int(s, 16)]; [None] when it raises [ValueError]. *)
Variable py_int16 : string -> option Z.
(** [simplekml.Color.rgb(r, g, b)] *)
Variable Color_rgb : Z -> Z -> Z -> string.
(** [simplekml.Color.changealphaint(alpha, gehex)] *)
Variable Color_changealphaint : Z -> string -> string.

Definition int16 (s : string) : result Z := or_raise ValueError (py_int16 s).

(** The body of the first loop. *)
Definition original_point (pm : placemark) : feature :=
  FPoint (NewPoint ("Original: " ++ Str.format_opt (PM.name pm))%string
                   [(PM.lon pm, PM.lat pm)]
                   Color_blue
                   0.5).

(** [[(lon, lat) for lat, lon in coords]] *)
Definition kml_coords (coords : list coord) : list (float * float) :=
  map (fun c => let '(lat, lon) := c in (lon, lat)) coords.

(** The body of the second loop for the polygon [poly] at index [i]. *)
Definition area_polygon (i : nat) (poly : polygon) (color : string)
           (opacity : float) : result feature :=
  let coords := exterior poly in
  let name := ("Área " ++ Str.of_nat (i + 1))%string in
  r <- int16 (Str.slice 1 3 color) ;;
  g <- int16 (Str.slice 3 5 color) ;;
  b <- int16 (Str.slice 5 7 color) ;;
  let line := Color_rgb r g b in
  alpha <- int_of_float (opacity * 255) ;;
  let fill := Color_changealphaint alpha (Color_rgb r g b) in
  Ok (FPolygon (NewPolygon name line 2 fill (kml_coords coords))).

(** [for i, poly in enumerate(polygons)], from index [i] on; an element
    whose [geom_type] is not ['Polygon'] adds nothing. *)
Fixpoint add_polygons (i : nat) (polygons : list geometry) (color : string)
         (opacity : float) (kml : list feature) : result (list feature) :=
  match polygons with
  | [] => Ok kml
  | GPolygon poly :: rest =>
      f <- area_polygon i poly color opacity ;;
      add_polygons (S i) rest color opacity (kml ++ [f])
  | _ :: rest => add_polygons (S i) rest color opacity kml
  end.

Definition create_output_kml (polygons : list geometry)
           (placemarks : list placemark) (radius : float) (color : string)
           (opacity : float) : result (list feature) :=
  let kml := map original_point placemarks in
  add_polygons 0 polygons color opacity kml.

End DocumentWriter.

(** ** Instances of the library functions, for running the program

    Each stands for the library function on the arguments the examples
    below use, where it returns what the library does. *)

Module Sample.

(** *** [float()] on plain decimal literals *)

Definition digit (c : ascii) : option Z :=
  let n := nat_of_ascii c in
  if ((48 <=? n) && (n <=? 57))%nat then Some (Z.of_nat (n - 48)) else None.

(** The digits of [s] up to its end, as a number with its digit count. *)
Fixpoint digits (s : string) (acc : Z) (count : nat) : option (Z * nat) :=
  match s with
  | EmptyString => Some (acc, count)
  | String c rest =>
      match digit c with
      | Some d => digits rest (10 * acc + d)%Z (S count)
      | None => None
      end
  end.

Definition float_of_nonneg (z : Z) : float := of_uint63 (Uint63.of_Z z).

(** [digits.digits], without sign: the quotient of two integers, which
    is the nearest float as long as both are below 2^53. *)
Definition unsigned_literal (s : string) : option float :=
  match Str.split "." s with
  | [whole] =>
      match digits whole 0 0 with
      | Some (m, S _) => Some (float_of_nonneg m)
      | _ => None
      end
  | [whole; fraction] =>
      match digits (whole ++ fraction) 0 0 with
      | Some (m, S _) =>
          Some (float_of_nonneg m
                / float_of_nonneg (10 ^ Z.of_nat (String.length fraction)))
      | _ => None
      end
  | _ => None
  end.

(** [float(s)] for [s] a decimal literal of at most 15 digits with an
    optional sign; any other text is refused. *)
Definition py_float (s : string) : option float :=
  match Str.strip s with
  | String "-" rest => option_map PrimFloat.opp (unsigned_literal rest)
  | String "+" rest => unsigned_literal rest
  | rest => unsigned_literal rest
  end.

(** *** libm's cosine *)

(** IEEE values of [cos] at [radians(-23.5)], [radians(90)],
    [radians(-90)] and [0]; any other argument is not tabulated. *)
Definition libm_cos (x : float) : float :=
  if x =? -0x1.a3fefbe6956ecp-2 then 0x1.d588e5e7e7228p-1
  else if x =? 0x1.921fb54442d18p+0 then 0x1.1a62633145c07p-54
  else if x =? -0x1.921fb54442d18p+0 then 0x1.1a62633145c07p-54
  else if x =? 0 then 1
  else nan.

(** *** shapely's union *)

(** The union of polygons that are pairwise disjoint: its parts are the
    polygons themselves. *)
Definition union_of_disjoint (ps : list polygon) : result geometry :=
  Ok (GMultiPolygon ps).

(** Two squares that are disjoint. *)
Definition square_a : polygon :=
  Polygon [(0, 0); (0, 1); (1, 1); (1, 0); (0, 0)] [].
Definition square_b : polygon :=
  Polygon [(2, 2); (2, 3); (3, 3); (3, 2); (2, 2)] [].










(** GEOS rejects the input. *)
Definition union_raising (ps : list polygon) : result geometry :=
  Raise GEOSException.

(** *** Colours *)

Definition hex_digit (c : ascii) : option Z :=
  let n := nat_of_ascii c in
  if ((48 <=? n) && (n <=? 57))%nat then Some (Z.of_nat (n - 48))
  else if ((65 <=? n) && (n <=? 70))%nat then Some (Z.of_nat (n - 55))
  else if ((97 <=? n) && (n <=? 102))%nat then Some (Z.of_nat (n - 87))
  else None.

(** [int(s, 16)] for [s] two hexadecimal digits. *)
Definition py_int16 (s : string) : option Z :=
  match s with
  | String hi (String lo EmptyString) =>
      match hex_digit hi, hex_digit lo with
      | Some h, Some l => Some (16 * h + l)%Z
      | _, _ => None
      end
  | _ => None
  end.

Definition hex_char (d : Z) : ascii :=
  ascii_of_nat (Z.to_nat (if (d <? 10)%Z then d + 48 else d + 87)).

(** ['%02x' % n] for [0 <= n < 256] *)
Definition hex2 (n : Z) : string :=
  String (hex_char (n / 16)) (String (hex_char (n mod 16)) EmptyString).

(** [Color.rgb(r, g, b)]: the KML colour [aabbggrr] with full alpha. *)
Definition Color_rgb (r g b : Z) : string :=
  ("ff" ++ hex2 b ++ hex2 g ++ hex2 r)%string.

(** [Color.changealphaint(alpha, gehex)] *)
Definition Color_changealphaint (alpha : Z) (gehex : string) : string :=
  (hex2 alpha ++ substring 2 6 gehex)%string.

End Sample.

(** ** Vocabulary of the properties *)

(** *** Floats *)

(** A float's representation is a zero or a finite non-zero number. *)
Definition sf_finite (x : spec_float) : Prop :=
  match x with
  | S754_zero _ | S754_finite _ _ _ => True
  | _ => False
  end.

Definition sf_nonzero (x : spec_float) : Prop :=
  match x with S754_zero _ => False | _ => True end.

(** A cosine the buffer can divide by: a finite number whose product with
    111000 is not zero. *)
Definition cos_regular (c : float) : Prop :=
  is_finite c = true /\ (111000 * c =? 0) = false.

(** The binary64 cosine of [radians(90)] and of [radians(-90)]:
    6.123233995736766e-17. *)
Definition cos_at_pole : float := 0x1.1a62633145c07p-54.

(** *** Merging *)

(** The five ways a merge ends. *)
Inductive merge_outcome (unary_union : list polygon -> result geometry)
          (P : list polygon) : list polygon * list st_event -> Prop :=
| merged_short : (length P <= 1)%nat -> merge_outcome unary_union P (P, [])
| merged_parts gs :
    (2 <= length P)%nat -> unary_union P = Ok (GMultiPolygon gs) ->
    merge_outcome unary_union P (gs, [])
| merged_single m :
    (2 <= length P)%nat -> unary_union P = Ok (GPolygon m) ->
    merge_outcome unary_union P ([m], [])
| merged_other t :
    (2 <= length P)%nat -> unary_union P = Ok (GOther t) ->
    merge_outcome unary_union P ([], [])
| merged_error e :
    (2 <= length P)%nat -> unary_union P = Raise e ->
    merge_outcome unary_union P (P, [st_error "Erro ao unir polígonos: " e]).


(** *** Extraction *)

(** The placemarks the loop of [parse_kml] visits. *)
Definition placemarks_of (root : element) : list element :=
  findall_descendants (kml "Placemark") root.

(** The coordinates element the loop reads for a placemark. *)
Definition point_of (pm : element) : option element :=
  find_descendant_child (kml "Point") (kml "coordinates") pm.

Definition has_point (pm : element) : bool :=
  match point_of pm with Some _ => true | None => false end.

(** The coordinates element of the placemark has no text. *)
Definition missing_text (pm : element) : bool :=
  match point_of pm with
  | Some point => match text point with None => true | Some _ => false end
  | None => false
  end.

(** The comma-separated fields of the placemark's coordinate text. *)
Definition coordinate_fields (pm : element) : option (list string) :=
  match point_of pm with
  | Some point =>
      option_map (fun t => Str.split "," (Str.strip t)) (text point)
  | None => None
  end.

(** The coordinate text has fewer than two fields. *)
Definition short_fields (pm : element) : bool :=
  match coordinate_fields pm with
  | Some fs => (length fs <? 2)%nat
  | None => false
  end.

(** The name and the description recorded for a placemark. *)
Definition name_of (pm : element) : option string :=
  match find_child (kml "name") pm with
  | Some name_elem => text name_elem
  | None => Some "Sem nome"
  end.

Definition description_of (pm : element) : option string :=
  match find_child (kml "description") pm with
  | Some desc_elem => text desc_elem
  | None => Some ""
  end.

(** No [Point] below the placemark has a [coordinates] child. *)
Definition lacks_point (pm : element) : Prop :=
  forall p c,
    In p (flat_map iter (children pm)) -> tag p = kml "Point" ->
    In c (children p) -> tag c <> kml "coordinates".

(** The element has no child with tag [t]. *)
Definition lacks_child (t : string) (e : element) : Prop :=
  forall c, In c (children e) -> tag c <> t.

(** [c] is the first child of the element with tag [t]. *)
Definition first_child (t : string) (e c : element) : Prop :=
  exists before after,
    children e = before ++ c :: after
    /\ tag c = t
    /\ Forall (fun b => tag b <> t) before.

Section ExtractionVocabulary.

Variable py_float : string -> option float.

(** The coordinate text has two or more fields, and the first or the
    second is not a float literal. *)
Definition not_numeric (pm : element) : bool :=
  match coordinate_fields pm with
  | Some (f0 :: f1 :: _) =>
      match py_float f0, py_float f1 with
      | Some _, Some _ => false
      | _, _ => true
      end
  | _ => false
  end.

(** What a placemark adds to the result: one entry when its coordinate
    text has two or more fields of which the first two are floats, else
    nothing. *)
Definition contribution (pm : element) : list placemark :=
  match point_of pm with
  | Some point =>
      match text point with
      | Some t =>
          match Str.split "," (Str.strip t) with
          | f0 :: f1 :: _ =>
              match py_float f0, py_float f1 with
              | Some lon, Some lat =>
                  [PM.Build (name_of pm) (description_of pm) lat lon
                            (Str.strip t)]
              | _, _ => []
              end
          | _ => []
          end
      | None => []
      end
  | None => []
  end.

(** The placemark can be processed: its coordinates element, if any, has
    a text, whose first two fields, if any, are floats. *)
Definition extractable (pm : element) : bool :=
  negb (missing_text pm) && negb (not_numeric pm).

End ExtractionVocabulary.

(** *** Sample documents *)

Module Doc.

Definition with_point (name : list element) (coordinates : option string)
  : element :=
  Element (kml "Placemark") None
    (name
     ++ [Element (kml "Point") None
           [Element (kml "coordinates") coordinates []]]).

(** A document with a named point with an altitude, a placemark without
    geometry, a point with a single field and an unnamed point. *)
Definition tolerant : element :=
  Element (kml "kml") None
    [Element (kml "Document") None
       [with_point [Element (kml "name") (Some "Se") []]
          (Some " -46.6,-23.5,760 ");
        Element (kml "Placemark") None
          [Element (kml "name") (Some "no geometry") []];
        with_point [] (Some "1.5");
        with_point [] (Some "10,20")]].

(** A document whose second placemark has text where numbers belong. *)
Definition with_text_for_numbers : element :=
  Element (kml "kml") None
    [with_point [] (Some "10,20"); with_point [] (Some "abc,def")].

(** A document whose only placemark has two fields, the second one empty. *)
Definition with_empty_field : element :=
  Element (kml "kml") None [with_point [] (Some "10,")].

(** A document whose second placemark has a coordinates element without
    text. *)
Definition with_empty_coordinates : element :=
  Element (kml "kml") None
    [with_point [] (Some "10,20"); with_point [] None].

(** A document whose only placemark has a point and no name. *)
Definition unnamed : element :=
  Element (kml "kml") None [with_point [] (Some "10,20")].

End Doc.

(** *** What the extractor records *)

(** How the entries [added] for a placemark follow from the fields of its
    coordinate text. *)
Definition field_entry (py_float : string -> option float) (pm : element)
           (added : list placemark) : Prop :=
  match coordinate_fields pm with
  | Some fs =>
      if (length fs <? 2)%nat then added = []
      else exists e,
          added = [e]
          /\ py_float (nth 0 fs "") = Some (PM.lon e)
          /\ py_float (nth 1 fs "") = Some (PM.lat e)
  | None => added = []
  end.

(** The placemark has a coordinate text of two or more fields. *)
Definition contributes (pm : element) : bool :=
  match coordinate_fields pm with
  | Some (_ :: _ :: _) => true
  | _ => false
  end.

(** The name and description of the entry [e] recorded for [pm]. *)
Definition default_entry (pm : element) (e : placemark) : Prop :=
  (lacks_child (kml "name") pm -> PM.name e = Some "Sem nome")
  /\ (lacks_child (kml "description") pm -> PM.description e = Some "")
  /\ (forall c, first_child (kml "name") pm c -> PM.name e = text c)
  /\ (forall c, first_child (kml "description") pm c ->
                PM.description e = text c).

(** *** Writing *)

(** The area entities for the polygons [polys], the first of which stands
    at index [i] of the list given to the writer. *)
Fixpoint areas_from (line fill : string) (i : nat) (polys : list polygon)
  : list polygon_feature :=
  match polys with
  | [] => []
  | poly :: rest =>
      NewPolygon ("Área " ++ Str.of_nat (i + 1)) line 2 fill
                 (kml_coords (exterior poly))
      :: areas_from line fill (S i) rest
  end.

(** The area entity [a] is the one of the polygon [poly] at index [i]: its
    name counts from 1, and its ring has longitude before latitude. *)
Definition area_of (i : nat) (poly : polygon) (a : polygon_feature) : Prop :=
  polygon_name a = ("Área " ++ Str.of_nat (i + 1))%string
  /\ outerboundaryis a = map (fun c => (snd c, fst c)) (exterior poly).

(** * The rest of the program *)

(** ** Dependency check: [check_and_install_packages] *)

Module Packages.

Definition required_packages : list string :=
  [ "streamlit"; "shapely"; "simplekml"; "numpy"; "pyproj"; "folium";
    "streamlit_folium"; "pandas" ]%string.

(** ["=" * 60] *)
Definition rule : string := string_of_list_ascii (repeat "="%char 60).

(** [sep.join(items)] *)
Definition join (sep : string) (items : list string) : string :=
  String.concat sep items.

Definition newline : string := String (ascii_of_nat 10) EmptyString.

Section Check.

(** Whether [importlib.util.find_spec(package)] returns a spec rather than
    [None], or the exception it raises. *)
Variable find_spec : string -> result bool.

(** The loop that collects the missing packages; [missing_packages] is the
    list built so far. *)
Fixpoint collect_missing (packages : list string)
         (missing_packages : list string) : result (list string) :=
  match packages with
  | [] => Ok missing_packages
  | package :: rest =>
      found <- find_spec package ;;
      collect_missing rest
        (if found then missing_packages else missing_packages ++ [package])
  end.

(** What the function returns and the lines it prints. *)
Definition check_and_install_packages : result (bool * list string) :=
  missing_packages <- collect_missing required_packages [] ;;
  match missing_packages with
  | _ :: _ =>
      Ok (false,
          [ rule;
            "PACOTES FALTANDO!";
            rule;
            "Os seguintes pacotes não estão instalados: "
              ++ join ", " missing_packages;
            newline ++ "Para instalar, execute no terminal:";
            "pip install " ++ join " " missing_packages;
            newline ++ "Ou instale todos de uma vez:";
            "pip install -r requirements.txt";
            rule ]%string)
  | [] => Ok (true, [])
  end.

End Check.

End Packages.

(** ** The processing step of the page

    The statements run when the button is pressed: one square per
    placemark, their merge, and the output document. *)

(** What the step leaves: the polygons stored in the session state and the
    document offered for download. *)
Record processed : Type := Processed {
  merged_polygons : list polygon;
  output_kml : list feature
}.

Section Processing.

Variable libm_cos : float -> float.
Variable unary_union : list polygon -> result geometry.
Variable py_int16 : string -> option Z.
Variable Color_rgb : Z -> Z -> Z -> string.
Variable Color_changealphaint : Z -> string -> string.

(** [for pm in placemarks: individual_polygons.append(
    create_square_polygon(pm['lat'], pm['lon'], raio))] *)
Fixpoint buffer_placemarks (placemarks : list placemark) (raio : float)
         (individual_polygons : list polygon) : result (list polygon) :=
  match placemarks with
  | [] => Ok individual_polygons
  | pm :: rest =>
      poly <- create_square_polygon libm_cos (PM.lat pm) (PM.lon pm) raio ;;
      buffer_placemarks rest raio (individual_polygons ++ [poly])
  end.

(** The step for the slider's radius [raio], the picked colour and the
    opacity; an exception of the buffer or of the writer is not caught. *)
Definition process_placemarks (placemarks : list placemark) (raio : float)
           (cor_poligono : string) (opacidade : float)
  : result processed * list st_event :=
  match buffer_placemarks placemarks raio [] with
  | Ok individual_polygons =>
      let '(merged, reported) :=
        merge_intersecting_polygons unary_union individual_polygons in
      (kml <- create_output_kml py_int16 Color_rgb Color_changealphaint
                (map GPolygon merged) placemarks raio cor_poligono opacidade ;;
       Ok (Processed merged kml),
       reported)
  | Raise e => (Raise e, [])
  end.

End Processing.

(** ** Map view: [create_folium_map] *)

Module Folium.

(** A [folium.Marker] with its popup and icon. *)
Record marker : Type := Marker {
  marker_location : float * float;
  marker_popup : string;
  icon_color : string;
  icon_name : string
}.

(** A [folium.Polygon] with the options the program passes. *)
Record polygon_layer : Type := PolygonLayer {
  locations : list (float * float);
  popup : string;
  color : string;
  weight : Z;
  fill : bool;
  fill_color : string;
  fill_opacity : float
}.

(** A [folium.Map] and what was added to it, markers first. *)
Record map : Type := Map {
  location : float * float;
  zoom_start : Z;
  markers : list marker;
  layers : list polygon_layer
}.

End Folium.

Section MapView.

(** The builtin [sum] over the floats of a non-empty list. *)
Variable py_sum : list float -> float.

(** [float(n)] for a list length. *)
Definition float_of_len (n : nat) : float :=
  of_uint63 (Uint63.of_Z (Z.of_nat n)).

(** The centre of the map: the mean position of the placemarks, or (0, 0)
    without placemarks. The divisor is a positive length. *)
Definition map_center (placemarks : list placemark) : float * float :=
  match placemarks with
  | [] => (0, 0)
  | _ :: _ =>
      (py_sum (map PM.lat placemarks) / float_of_len (length placemarks),
       py_sum (map PM.lon placemarks) / float_of_len (length placemarks))
  end.

Definition placemark_marker (pm : placemark) : Folium.marker :=
  Folium.Marker (PM.lat pm, PM.lon pm)
    ("<b>" ++ Str.format_opt (PM.name pm) ++ "</b><br>"
     ++ Str.format_opt (PM.description pm))%string
    "blue" "info-sign".

(** [[(lat, lon) for lat, lon in coords]] *)
Definition folium_coords (coords : list coord) : list (float * float) :=
  map (fun c => let '(lat, lon) := c in (lat, lon)) coords.

(** The loop over the polygons, from index [i] on. *)
Fixpoint polygon_layers (i : nat) (polygons : list geometry) (color : string)
         (opacity : float) : list Folium.polygon_layer :=
  match polygons with
  | [] => []
  | GPolygon poly :: rest =>
      Folium.PolygonLayer (folium_coords (exterior poly))
        ("Área " ++ Str.of_nat (i + 1)) color 2 true color opacity
      :: polygon_layers (S i) rest color opacity
  | _ :: rest => polygon_layers (S i) rest color opacity
  end.

(** [create_folium_map(polygons, placemarks, color, opacity)]; [None] is
    Python's [None]. The value is the map the calls of the function
    describe: the checks folium makes on what it is given, which raise
    ValueError for a ring without coordinates and for a location that
    holds a NaN, are not part of it. *)
Definition create_folium_map (polygons : list geometry)
           (placemarks : list placemark) (color : string) (opacity : float)
  : option Folium.map :=
  match polygons with
  | [] => None
  | _ :: _ =>
      Some (Folium.Map (map_center placemarks) 15
              (map placemark_marker placemarks)
              (polygon_layers 0 polygons color opacity))
  end.

End MapView.

(** ** Vocabulary of the further properties *)

(** The exception a placemark raises in the loop of [parse_kml], if any. *)
Definition placemark_error (py_float : string -> option float)
           (pm : element) : option exn :=
  if missing_text pm then Some AttributeError
  else if not_numeric py_float pm then Some ValueError
  else None.

(** The stripped coordinate text of a placemark. *)
Definition coordinate_text (pm : element) : string :=
  match point_of pm with
  | Some point =>
      match text point with Some t => Str.strip t | None => "" end
  | None => ""
  end.

(** [(lat, lon)] to [(lon, lat)] and back. *)
Definition swap_axes (c : float * float) : float * float := (snd c, fst c).

Definition is_polygon (g : geometry) : bool :=
  match g with GPolygon _ => true | _ => false end.

(** The polygons of a list of geometries, each with its index in the list,
    counted from [i]. *)
Fixpoint indexed_polygons (i : nat) (gs : list geometry)
  : list (nat * polygon) :=
  match gs with
  | [] => []
  | GPolygon poly :: rest => (i, poly) :: indexed_polygons (S i) rest
  | _ :: rest => indexed_polygons (S i) rest
  end.

(** A geometry without the holes of its polygons. *)
Definition without_holes (g : geometry) : geometry :=
  match g with
  | GPolygon poly => GPolygon (Polygon (exterior poly) [])
  | _ => g
  end.

(** *** Further sample documents *)

Module MoreDoc.

(** A document with a folder and no placemark. *)
Definition no_placemark : element :=
  Element (kml "kml") None
    [Element (kml "Document") None
       [Element (kml "name") (Some "Empty") [];
        Element (kml "Folder") None []]].

End MoreDoc.

(** *** Reading a written document *)

(** The rings of the area entities of a document, in order. *)
Definition area_rings (kml : list feature) : list (list (float * float)) :=
  flat_map (fun f => match f with
                     | FPolygon a => [outerboundaryis a]
                     | FPoint _ => []
                     end) kml.

(** The area entity [a] belongs to the polygon [snd ip] at index [fst ip]. *)
Definition area_at (ip : nat * polygon) (a : polygon_feature) : Prop :=
  area_of (fst ip) (snd ip) a.

(** *** A sample document of the writer *)

Module MoreSample.

(** Two squares with a point geometry between them. *)
Definition mixed : list geometry :=
  [GPolygon Sample.square_a; GOther Point; GPolygon Sample.square_b].

Definition se : placemark :=
  PM.Build (Some "Se") (Some "") (-23.5) (-46.6) "-46.6,-23.5,760".

(** What the writer returns for [mixed] and [se], in red at opacity 0.3. *)
Definition mixed_kml : list feature :=
  [ FPoint (NewPoint "Original: Se" [(-46.6, -23.5)] "ffff0000" 0.5);
    FPolygon (NewPolygon "Área 1" "ff0000ff" 2 "4c0000ff"
                [(0, 0); (1, 0); (1, 1); (0, 1); (0, 0)]);
    FPolygon (NewPolygon "Área 3" "ff0000ff" 2 "4c0000ff"
                [(2, 2); (3, 2); (3, 3); (2, 3); (2, 2)]) ].

End MoreSample.

(** *** Comparing the map with the document *)

(** The area entities of a document, in order. *)
Definition area_entities (kml : list feature) : list polygon_feature :=
  flat_map (fun f => match f with
                     | FPolygon a => [a]
                     | FPoint _ => []
                     end) kml.

(** A layer of the map and an area entity of the document show the same
    polygon: same label, and the ring of the entity is the ring of the
    layer with its axes swapped. *)
Definition same_area (l : Folium.polygon_layer) (a : polygon_feature) : Prop :=
  Folium.popup l = polygon_name a
  /\ outerboundaryis a = map swap_axes (Folium.locations l).

(** *** The processing step *)

(** The square of a placemark for the radius [raio]. *)
Definition buffered (libm_cos : float -> float) (raio : float)
           (pm : placemark) (poly : polygon) : Prop :=
  create_square_polygon libm_cos (PM.lat pm) (PM.lon pm) raio = Ok poly.

(** A placemark the buffer accepts: a latitude strictly between -90 and
    90, a finite longitude and a regular cosine. *)
Definition bufferable (libm_cos : float -> float) (pm : placemark) : Prop :=
  (-90 <? PM.lat pm) = true /\ (PM.lat pm <? 90) = true
  /\ is_finite (PM.lon pm) = true
  /\ cos_regular (libm_cos (Math.radians (PM.lat pm))).

(** *** Sample placemarks of the processing step *)

Module MorePlacemarks.

Definition origin : placemark :=
  PM.Build (Some "Origin") (Some "") 0 0 "0,0".

(** The placemark [parse_kml] records for the coordinate text "0,inf",
    whose second field [float()] reads as infinity. *)
Definition at_infinity : placemark :=
  PM.Build (Some "Sem nome") (Some "") infinity 0 "0,inf".

(** The square of radius 40 around [MoreSample.se]. *)
Definition se_square : polygon :=
  Polygon [ (-23.50036036036036, -46.600392951749214);
            (-23.50036036036036, -46.59960704825079);
            (-23.49963963963964, -46.59960704825079);
            (-23.49963963963964, -46.600392951749214);
            (-23.50036036036036, -46.600392951749214) ] [].

(** What the step leaves for [MoreSample.se] and [origin], radius 40, in
    red at opacity 0.3, when their squares are disjoint. *)
Definition two_points : processed :=
  Eval vm_compute in
    match fst (process_placemarks Sample.libm_cos Sample.union_of_disjoint
                 Sample.py_int16 Sample.Color_rgb Sample.Color_changealphaint
                 [MoreSample.se; origin] 40 "#FF0000" 0.3) with
    | Ok out => out
    | Raise _ => Processed [] []
    end.

End MorePlacemarks.

(** *** Instances for the dependency check and the map *)

Module MoreLibrary.

(** An installation in which only folium is missing. *)
Definition found (package : string) : bool :=
  negb (String.eqb package "folium").

Definition find_spec (package : string) : result bool := Ok (found package).

(** [sum] as the additions from left to right, starting from 0. *)
Definition sum_left (xs : list float) : float :=
  fold_left PrimFloat.add xs 0.

End MoreLibrary.

(** A layer of the map is the one of the polygon [snd ip] at index
    [fst ip]. *)
Definition layer_at (ip : nat * polygon) (l : Folium.polygon_layer) : Prop :=
  Folium.popup l = ("Área " ++ Str.of_nat (fst ip + 1))%string
  /\ Folium.locations l = exterior (snd ip).

(** * Properties *)

(** ** Binary64 arithmetic never invents a NaN *)

Module FloatFacts.

Lemma shr_1_nonneg (mrs : shr_record) :
  (0 <= shr_m mrs)%Z -> (0 <= shr_m (shr_1 mrs))%Z.
Proof.
  destruct mrs as [m r s]; simpl.
  destruct m as [|p|p]; [ | destruct p | ]; simpl; lia.
Qed.

Lemma iter_pos_invariant {A : Type} (P : A -> Prop) (f : A -> A) :
  (forall x, P x -> P (f x)) ->
  forall n x, P x -> P (iter_pos f n x).
Proof.
  intros Hf; induction n as [n IH|n IH|]; intros x Hx; simpl; auto.
Qed.

Lemma shr_nonneg (mrs : shr_record) (e n : Z) :
  (0 <= shr_m mrs)%Z -> (0 <= shr_m (fst (shr mrs e n)))%Z.
Proof.
  intros H; unfold shr; destruct n; simpl; auto.
  apply (iter_pos_invariant (fun r => (0 <= shr_m r)%Z)); auto.
  apply shr_1_nonneg.
Qed.

Lemma shr_fexp_nonneg (m e : Z) (l : location) :
  (0 <= m)%Z -> (0 <= shr_m (fst (shr_fexp prec emax m e l)))%Z.
Proof.
  intros H; unfold shr_fexp; apply shr_nonneg.
  destruct l as [|[]]; simpl; assumption.
Qed.

Lemma round_nearest_even_nonneg (m : Z) (l : location) :
  (0 <= m)%Z -> (0 <= round_nearest_even m l)%Z.
Proof.
  intros H; destruct l as [|[]]; simpl; try lia.
  destruct (Z.even m); lia.
Qed.

(** Rounding a non-negative mantissa gives a zero, a finite number or an
    infinity. *)
Lemma binary_round_aux_not_nan (s : bool) (m e : Z) (l : location) :
  (0 <= m)%Z -> binary_round_aux prec emax s m e l <> S754_nan.
Proof.
  intros H; unfold binary_round_aux.
  pose proof (shr_fexp_nonneg m e l H) as H1.
  destruct (shr_fexp prec emax m e l) as [mrs' e']; simpl in H1.
  pose proof (shr_fexp_nonneg _ e' loc_Exact
                (round_nearest_even_nonneg _ (loc_of_shr_record mrs') H1)) as H2.
  destruct (shr_fexp prec emax _ e' loc_Exact) as [mrs'' e'']; simpl in H2.
  destruct (shr_m mrs'') as [|p|p]; try discriminate.
  - destruct (Z.leb e'' (Z.sub emax prec)); discriminate.
  - lia.
Qed.

Lemma binary_round_not_nan (s : bool) (m : positive) (e : Z) :
  binary_round prec emax s m e <> S754_nan.
Proof.
  unfold binary_round.
  destruct (shl_align m e _) as [mz ez].
  apply binary_round_aux_not_nan; lia.
Qed.

Lemma binary_normalize_not_nan (m e : Z) (szero : bool) :
  binary_normalize prec emax m e szero <> S754_nan.
Proof.
  destruct m; simpl; try discriminate; apply binary_round_not_nan.
Qed.

Lemma SFsub_not_nan (x y : spec_float) :
  sf_finite x -> y <> S754_nan -> SF64sub x y <> S754_nan.
Proof.
  intros Hx Hy; unfold SF64sub, SFsub.
  destruct x as [sx|sx| |sx mx ex]; try contradiction;
    destruct y as [sy|sy| |sy my ey]; try congruence; try discriminate.
  - destruct sx, sy; discriminate.
  - apply binary_normalize_not_nan.
Qed.

Lemma SFmul_not_nan (x y : spec_float) :
  sf_finite x -> sf_finite y -> SF64mul x y <> S754_nan.
Proof.
  intros Hx Hy; unfold SF64mul, SFmul.
  destruct x as [sx|sx| |sx mx ex]; try contradiction;
    destruct y as [sy|sy| |sy my ey]; try contradiction; try discriminate.
  apply binary_round_aux_not_nan; lia.
Qed.

Lemma SFdiv_not_nan (x y : spec_float) :
  sf_finite x -> y <> S754_nan -> sf_nonzero y -> SF64div x y <> S754_nan.
Proof.
  intros Hx Hy Hz; unfold SF64div, SFdiv.
  destruct x as [sx|sx| |sx mx ex]; try contradiction;
    destruct y as [sy|sy| |sy my ey]; try contradiction; try congruence;
    try discriminate.
  unfold SFdiv_core_binary.
  set (m' := match _ with Zpos _ => _ | Z0 => _ | Zneg _ => _ end).
  assert (Hm' : (0 <= m')%Z).
  { subst m'. destruct (Z.sub (Z.sub ex ey) _) as [|p|p]; try lia.
    rewrite Z.shiftl_mul_pow2 by lia.
    apply Z.mul_nonneg_nonneg; [lia | apply Z.pow_nonneg; lia]. }
  pose proof (Z_div_mod m' (Zpos my) ltac:(lia)) as Hdiv.
  destruct (Z.div_eucl m' (Zpos my)) as [q r].
  apply binary_round_aux_not_nan. nia.
Qed.

Lemma SFeqb_refl (x : spec_float) : x <> S754_nan -> SFeqb x x = true.
Proof.
  intros H; unfold SFeqb, SFcompare.
  destruct x as [s|s| |s m e]; try congruence; try reflexivity.
  - destruct s; reflexivity.
  - destruct s; rewrite Z.compare_refl, Pos.compare_cont_refl; reflexivity.
Qed.

(** [is_nan] reads the representation. *)
Lemma is_nan_false (x : float) :
  Prim2SF x <> S754_nan -> is_nan x = false.
Proof.
  intros H; unfold is_nan; rewrite eqb_spec, SFeqb_refl; auto.
Qed.

Lemma not_nan_Prim2SF (x : float) :
  is_nan x = false -> Prim2SF x <> S754_nan.
Proof.
  unfold is_nan; rewrite eqb_spec; intros H E; rewrite E in H; discriminate.
Qed.

Lemma is_finite_Prim2SF (x : float) :
  is_finite x = true -> sf_finite (Prim2SF x).
Proof.
  unfold is_finite; intros H.
  apply negb_true_iff, orb_false_iff in H; destruct H as [Hn Hi].
  apply not_nan_Prim2SF in Hn.
  unfold is_infinity in Hi; rewrite eqb_spec, abs_spec in Hi.
  destruct (Prim2SF x) as [s|s| |s m e]; simpl; auto.
  discriminate.
Qed.

(** A float strictly between two finite numbers is finite. *)
Lemma between_Prim2SF (lo hi x : float) :
  sf_finite (Prim2SF lo) -> sf_finite (Prim2SF hi) ->
  (lo <? x)%float = true -> (x <? hi)%float = true ->
  sf_finite (Prim2SF x).
Proof.
  rewrite !ltb_spec; unfold SFltb, SFcompare; intros Hlo Hhi H1 H2.
  destruct (Prim2SF x) as [s|s| |s m e]; simpl; auto.
  - destruct (Prim2SF lo) as [a|a| |a ma ea]; try contradiction;
      destruct (Prim2SF hi) as [b|b| |b mb eb]; try contradiction;
      destruct s; discriminate.
  - destruct (Prim2SF lo); discriminate.
Qed.

Lemma nonzero_Prim2SF (x : float) :
  (x =? 0)%float = false -> sf_nonzero (Prim2SF x).
Proof.
  rewrite eqb_spec; intros H.
  destruct (Prim2SF x); simpl; auto; discriminate.
Qed.

(** The operations on floats, read on the representation. *)
Lemma sub_not_nan (x y : float) :
  sf_finite (Prim2SF x) -> is_nan y = false -> is_nan (x - y) = false.
Proof.
  intros Hx Hy; apply is_nan_false; rewrite sub_spec.
  apply SFsub_not_nan; auto using not_nan_Prim2SF.
Qed.

Lemma div_not_nan (x y : float) :
  sf_finite (Prim2SF x) -> is_nan y = false -> (y =? 0)%float = false ->
  is_nan (x / y) = false.
Proof.
  intros Hx Hy Hz; apply is_nan_false; rewrite div_spec.
  apply SFdiv_not_nan; auto using not_nan_Prim2SF, nonzero_Prim2SF.
Qed.

Lemma mul_not_nan (x y : float) :
  sf_finite (Prim2SF x) -> sf_finite (Prim2SF y) -> is_nan (x * y) = false.
Proof.
  intros Hx Hy; apply is_nan_false; rewrite mul_spec.
  apply SFmul_not_nan; auto.
Qed.
Lemma SFmul_nonzero_not_nan (x y : spec_float) :
  sf_finite x -> sf_nonzero x -> y <> S754_nan -> SF64mul x y <> S754_nan.
Proof.
  intros Hx Hz Hy; unfold SF64mul, SFmul.
  destruct x as [sx|sx| |sx mx ex]; try contradiction;
    destruct y as [sy|sy| |sy my ey]; try congruence; try discriminate.
  apply binary_round_aux_not_nan; lia.
Qed.

Lemma mul_nonzero_not_nan (x y : float) :
  sf_finite (Prim2SF x) -> sf_nonzero (Prim2SF x) -> is_nan y = false ->
  is_nan (x * y) = false.
Proof.
  intros Hx Hz Hy; apply is_nan_false; rewrite mul_spec.
  apply SFmul_nonzero_not_nan; auto using not_nan_Prim2SF.
Qed.

Lemma is_nan_Prim2SF (x : float) : is_nan x = true -> Prim2SF x = S754_nan.
Proof.
  unfold is_nan; rewrite eqb_spec; intros H.
  destruct (Prim2SF x) as [s|s| |s m e] eqn:E; auto;
    rewrite SFeqb_refl in H; discriminate.
Qed.

Lemma Prim2SF_is_nan (x : float) : Prim2SF x = S754_nan -> is_nan x = true.
Proof. unfold is_nan; rewrite eqb_spec; intros ->; reflexivity. Qed.

Lemma sub_nan_l (x y : float) : is_nan x = true -> is_nan (x - y) = true.
Proof.
  intros H; apply Prim2SF_is_nan; rewrite sub_spec, (is_nan_Prim2SF x H).
  reflexivity.
Qed.

Lemma sub_nan_r (x y : float) : is_nan y = true -> is_nan (x - y) = true.
Proof.
  intros H; apply Prim2SF_is_nan; rewrite sub_spec, (is_nan_Prim2SF y H).
  unfold SF64sub, SFsub; destruct (Prim2SF x); reflexivity.
Qed.

Lemma div_nan_l (x y : float) : is_nan x = true -> is_nan (x / y) = true.
Proof.
  intros H; apply Prim2SF_is_nan; rewrite div_spec, (is_nan_Prim2SF x H).
  reflexivity.
Qed.

End FloatFacts.

(** ** MetricBuffer *)

Section MetricBufferFacts.

Import FloatFacts.

Variable libm_cos : float -> float.

Lemma truediv_111000 (r : float) : truediv r 111000 = Ok (r / 111000).
Proof. reflexivity. Qed.

Lemma cos_of_regular (x : float) :
  cos_regular (libm_cos x) -> Math.cos libm_cos x = Ok (libm_cos x).
Proof.
  intros [Hf _]; unfold Math.cos, is_finite in *.
  apply negb_true_iff, orb_false_iff in Hf; destruct Hf as [Hn Hi].
  rewrite Hn, Hi; reflexivity.
Qed.

(** What the function computes, whatever the radius and the latitude. *)
Lemma create_square_polygon_unfold (lat lon r : float) :
  create_square_polygon libm_cos lat lon r =
  match Math.cos libm_cos (Math.radians lat) with
  | Raise e => Raise e
  | Ok c =>
      if 111000 * c =? 0 then Raise ZeroDivisionError
      else Polygon_of_shell
             (square_vertices lat lon (r / 111000) (r / (111000 * c)))
  end.
Proof.
  unfold create_square_polygon; rewrite truediv_111000; simpl.
  destruct (Math.cos libm_cos (Math.radians lat)) as [c|e]; simpl; auto.
  unfold truediv; destruct (111000 * c =? 0); reflexivity.
Qed.

(** The polygon of a shell that ends with its first coordinate: GEOS
    refuses the ring exactly when that coordinate differs from itself. *)
Lemma polygon_of_closed_shell (v : coord) (rest : list coord) :
  Polygon_of_shell (v :: rest ++ [v])
  = if coord_eqb v v then Ok (Polygon (v :: rest ++ [v]) [])
    else Raise GEOSException.
Proof.
  assert (E : forall l : list coord,
             ring_closure (v :: l ++ [v]) = negb (coord_eqb v v)).
  { intros l; unfold ring_closure.
    rewrite app_comm_cons, last_last; reflexivity. }
  unfold Polygon_of_shell; cbv zeta.
  rewrite E.
  destruct (coord_eqb v v) eqn:Hv; cbn [negb].
  - rewrite E; reflexivity.
  - cbn [firstn]. rewrite <- app_comm_cons, E; reflexivity.
Qed.

(** The polygon of the five vertices: GEOS refuses the ring exactly when
    its first vertex holds a NaN. *)
Lemma polygon_of_square (lat lon a b : float) :
  Polygon_of_shell (square_vertices lat lon a b)
  = if is_nan (lat - a) || is_nan (lon - b) then Raise GEOSException
    else Ok (Polygon (square_vertices lat lon a b) []).
Proof.
  refine (eq_trans
            (polygon_of_closed_shell (lat - a, lon - b)
               [ (lat - a, lon + b); (lat + a, lon + b);
                 (lat + a, lon - b) ]) _).
  unfold square_vertices, coord_eqb, is_nan; cbn [fst snd app].
  destruct (lat - a =? lat - a), (lon - b =? lon - b); reflexivity.
Qed.

(** A shell whose first coordinate is no NaN and is repeated at its end is
    closed already. *)
Lemma square_closure (lat lon a b : float) :
  is_nan (lat - a) = false -> is_nan (lon - b) = false ->
  ring_closure (square_vertices lat lon a b) = false.
Proof.
  intros H1 H2; unfold ring_closure, coord_eqb; simpl.
  unfold is_nan in H1, H2.
  apply negb_false_iff in H1, H2; rewrite H1, H2; reflexivity.
Qed.

Lemma finite_111000 : sf_finite (Prim2SF 111000).
Proof. vm_compute; exact I. Qed.

(** For finite inputs and a regular cosine no vertex is a NaN. *)
Lemma square_closure_finite (lat lon r : float) :
  sf_finite (Prim2SF lat) -> is_finite lon = true -> is_finite r = true ->
  cos_regular (libm_cos (Math.radians lat)) ->
  ring_closure
    (square_vertices lat lon (r / 111000)
       (r / (111000 * libm_cos (Math.radians lat)))) = false.
Proof.
  intros Hlat Hlon Hr [Hcf Hcz].
  apply is_finite_Prim2SF in Hlon, Hr, Hcf.
  apply square_closure.
  - apply sub_not_nan; auto.
    apply div_not_nan; auto.
  - apply sub_not_nan; auto.
    apply div_not_nan; auto.
    apply mul_not_nan; auto using finite_111000.
Qed.

(** For finite inputs and a regular cosine the function returns the five
    vertices it computed, without an added closing vertex. *)
Lemma create_square_polygon_finite (lat lon r : float) :
  sf_finite (Prim2SF lat) -> is_finite lon = true -> is_finite r = true ->
  cos_regular (libm_cos (Math.radians lat)) ->
  create_square_polygon libm_cos lat lon r
  = Ok (Polygon
          (square_vertices lat lon (r / 111000)
             (r / (111000 * libm_cos (Math.radians lat)))) []).
Proof.
  intros Hlat Hlon Hr Hc.
  rewrite create_square_polygon_unfold, (cos_of_regular _ Hc).
  unfold Polygon_of_shell.
  rewrite (square_closure_finite lat lon r Hlat Hlon Hr Hc).
  rewrite (square_closure_finite lat lon r Hlat Hlon Hr Hc).
  destruct Hc as [_ Hcz]; rewrite Hcz; reflexivity.
Qed.

Lemma finite_radians_factor : sf_finite (Prim2SF (Math.pi / 180)).
Proof. vm_compute; exact I. Qed.

(** The cosine math.cos returns for an argument that is no NaN is no
    NaN. *)
Lemma cos_not_nan (x c : float) :
  is_nan x = false -> Math.cos libm_cos x = Ok c -> is_nan c = false.
Proof.
  unfold Math.cos; intros Hx.
  rewrite Hx; cbn [negb]; rewrite andb_true_r.
  destruct (is_nan (libm_cos x)) eqn:Hn; [discriminate|].
  destruct (is_infinity (libm_cos x) && is_finite x); [discriminate|].
  intros H; injection H as <-; exact Hn.
Qed.

(** For a finite latitude, longitude and radius no vertex of the shell is
    a NaN: the function fails where math.cos or the division does, and
    returns the five vertices it computed otherwise. *)
Lemma create_square_polygon_finite_inputs (lat lon r : float) :
  is_finite lat = true -> is_finite lon = true -> is_finite r = true ->
  create_square_polygon libm_cos lat lon r =
  match Math.cos libm_cos (Math.radians lat) with
  | Raise e => Raise e
  | Ok c =>
      if 111000 * c =? 0 then Raise ZeroDivisionError
      else Ok (Polygon
                 (square_vertices lat lon (r / 111000) (r / (111000 * c)))
                 [])
  end.
Proof.
  intros Hlat Hlon Hr.
  apply is_finite_Prim2SF in Hlat, Hlon, Hr.
  rewrite create_square_polygon_unfold.
  destruct (Math.cos libm_cos (Math.radians lat)) as [c|e] eqn:Hcos; auto.
  destruct (111000 * c =? 0) eqn:Hz; auto.
  assert (Hc : is_nan c = false).
  { apply (cos_not_nan (Math.radians lat)); auto.
    unfold Math.radians.
    apply mul_not_nan; auto using finite_radians_factor. }
  assert (Hd : is_nan (111000 * c) = false).
  { apply mul_nonzero_not_nan; auto; vm_compute; exact I. }
  rewrite polygon_of_square.
  rewrite (sub_not_nan lat (r / 111000)), (sub_not_nan lon (r / (111000 * c)));
    auto.
  - apply div_not_nan; auto.
  - apply div_not_nan; auto.
Qed.

(** C1. For a latitude strictly between -90 and 90, a finite longitude and
    a finite radius, where libm's cosine of the latitude is regular, the
    buffer returns a ring of exactly five coordinates, in the order
    (lat-latOffset, lon-lonOffset), (lat-latOffset, lon+lonOffset),
    (lat+latOffset, lon+lonOffset), (lat+latOffset, lon-lonOffset) and the
    first again, with latOffset = r/111000 and
    lonOffset = r/(111000*cos(radians(lat))); its first vertex equals its
    last, so that no closing vertex is added. *)
Theorem create_square_polygon_ring (lat lon r : float) :
  (-90 <? lat) = true -> (lat <? 90) = true ->
  is_finite lon = true -> is_finite r = true ->
  cos_regular (libm_cos (Math.radians lat)) ->
  let lat_offset := r / 111000 in
  let lon_offset := r / (111000 * libm_cos (Math.radians lat)) in
  exists ring : list coord,
    create_square_polygon libm_cos lat lon r = Ok (Polygon ring [])
    /\ ring = [ (lat - lat_offset, lon - lon_offset);
                (lat - lat_offset, lon + lon_offset);
                (lat + lat_offset, lon + lon_offset);
                (lat + lat_offset, lon - lon_offset);
                (lat - lat_offset, lon - lon_offset) ]
    /\ length ring = 5%nat
    /\ hd_error ring = Some (last ring (lat, lon))
    /\ ring_closure ring = false.
Proof.
  intros Hlo Hhi Hlon Hr Hc lat_offset lon_offset.
  assert (Hlat : sf_finite (Prim2SF lat)).
  { apply (between_Prim2SF (-90) 90); auto; vm_compute; exact I. }
  pose proof (create_square_polygon_finite lat lon r Hlat Hlon Hr Hc) as E.
  exists (square_vertices lat lon lat_offset lon_offset).
  split; [exact E|]. split; [reflexivity|]. split; [reflexivity|].
  split; [reflexivity|].
  exact (square_closure_finite lat lon r Hlat Hlon Hr Hc).
Qed.


(** C9 (amended). At latitude +90 or -90 the buffer applies no guard: where
    libm's cosine of radians(lat) is its binary64 value
    6.123233995736766e-17, it returns, for every finite longitude and
    radius, the closed five-vertex ring with latOffset = r/111000 and
    lonOffset = r/(111000 * 6.123233995736766e-17). *)
Theorem poles_are_buffered (lat lon r : float) :
  lat = 90 \/ lat = -90 ->
  libm_cos (Math.radians lat) = cos_at_pole ->
  is_finite lon = true -> is_finite r = true ->
  create_square_polygon libm_cos lat lon r
  = Ok (Polygon
          (square_vertices lat lon (r / 111000) (r / (111000 * cos_at_pole)))
          []).
Proof.
  intros Hlat Hcos Hlon Hr.
  rewrite <- Hcos.
  apply create_square_polygon_finite; auto.
  - destruct Hlat as [-> | ->]; vm_compute; exact I.
  - rewrite Hcos; split; reflexivity.
Qed.

End MetricBufferFacts.

(** The buffer at latitude -23.5, longitude -46.6 and radius 40. *)
Lemma create_square_polygon_ring_witness :
  ((-90 <? -23.5) = true /\ (-23.5 <? 90) = true
   /\ is_finite (-46.6) = true /\ is_finite 40 = true
   /\ cos_regular (Sample.libm_cos (Math.radians (-23.5))))
  /\ exists ring : list coord,
       create_square_polygon Sample.libm_cos (-23.5) (-46.6) 40
       = Ok (Polygon ring [])
       /\ ring = [ (-23.50036036036036, -46.600392951749214);
                   (-23.50036036036036, -46.59960704825079);
                   (-23.49963963963964, -46.59960704825079);
                   (-23.49963963963964, -46.600392951749214);
                   (-23.50036036036036, -46.600392951749214) ]
       /\ length ring = 5%nat
       /\ hd_error ring = Some (last ring (-23.5, -46.6))
       /\ ring_closure ring = false.
Proof.
  assert (H : (-90 <? -23.5) = true /\ (-23.5 <? 90) = true
              /\ is_finite (-46.6) = true /\ is_finite 40 = true
              /\ cos_regular (Sample.libm_cos (Math.radians (-23.5)))).
  { repeat split; reflexivity. }
  split; [exact H|].
  destruct H as (H1 & H2 & H3 & H4 & H5).
  exact (create_square_polygon_ring Sample.libm_cos (-23.5) (-46.6) 40
           H1 H2 H3 H4 H5).
Defined.



(** C9, as stated, fails: at latitude 90 and radius 40 the buffer returns a
    polygon whose longitudes are 5.9e12 degrees away from the point. *)
Lemma north_pole_is_buffered :
  create_square_polygon Sample.libm_cos 90 0 40
  = Ok (Polygon [ (89.99963963963964, -5885131298448.782);
                  (89.99963963963964, 5885131298448.782);
                  (90.00036036036036, 5885131298448.782);
                  (90.00036036036036, -5885131298448.782);
                  (89.99963963963964, -5885131298448.782) ] []).
Proof. reflexivity. Qed.

(** The buffer at the south pole, longitude 0 and radius 40. *)
Lemma poles_are_buffered_witness :
  ((-90 = 90 \/ -90 = -90)
   /\ Sample.libm_cos (Math.radians (-90)) = cos_at_pole
   /\ is_finite 0 = true /\ is_finite 40 = true)
  /\ create_square_polygon Sample.libm_cos (-90) 0 40
     = Ok (Polygon
             (square_vertices (-90) 0 (40 / 111000)
                (40 / (111000 * cos_at_pole))) []).
Proof.
  assert (H : (-90 = 90 \/ -90 = -90)
              /\ Sample.libm_cos (Math.radians (-90)) = cos_at_pole
              /\ is_finite 0 = true /\ is_finite 40 = true).
  { split; [right; reflexivity | repeat split; reflexivity]. }
  split; [exact H|].
  destruct H as (H1 & H2 & H3 & H4).
  exact (poles_are_buffered Sample.libm_cos (-90) 0 40 H1 H2 H3 H4).
Defined.

(** ** PolygonMerger *)

Section PolygonMergerFacts.

Variable unary_union : list polygon -> result geometry.

Local Abbreviation merge := (merge_intersecting_polygons unary_union).

(** The constructors the merge and the writer match on are the values of
    [geom_type] the program compares with. *)
Lemma geom_type_tests (g : geometry) :
  String.eqb (geom_type g) "MultiPolygon"
  = match g with GMultiPolygon _ => true | _ => false end
  /\ String.eqb (geom_type g) "Polygon"
     = match g with GPolygon _ => true | _ => false end.
Proof. destruct g as [p|gs|[]]; split; reflexivity. Qed.

Lemma merge_cases (P : list polygon) : merge_outcome unary_union P (merge P).
Proof.
  destruct P as [|p [|q P]].
  - apply merged_short; simpl; lia.
  - apply merged_short; simpl; lia.
  - assert (L : (2 <= length (p :: q :: P))%nat) by (simpl; lia).
    unfold merge_intersecting_polygons.
    destruct (unary_union (p :: q :: P)) as [[m|gs|t]|e] eqn:E.
    + now apply merged_single.
    + now apply merged_parts.
    + now apply (merged_other _ _ t).
    + now apply merged_error.
Qed.


(** C3. When the union raises, merge returns its input list unchanged, and
    reports the error instead of raising. *)
Theorem merge_falls_back_on_error (P : list polygon) (e : exn) :
  unary_union P = Raise e ->
  fst (merge P) = P
  /\ ((2 <= length P)%nat ->
      snd (merge P) = [st_error "Erro ao unir polígonos: " e]).
Proof.
  intros He.
  destruct (merge_cases P) as [L|gs L E|m L E|t L E|e' L E]; simpl;
    try congruence.
  - split; [reflexivity | lia].
  - split; [reflexivity | congruence].
Qed.

Section Idempotence.

(** When two polygons are the same polygon. *)
Variable same_polygon : polygon -> polygon -> Prop.
Hypothesis same_polygon_equivalence : Equivalence same_polygon.



End Idempotence.

End PolygonMergerFacts.



(** The merge of two squares whose union raises. *)
Lemma merge_falls_back_on_error_witness :
  Sample.union_raising [Sample.square_a; Sample.square_a] = Raise GEOSException
  /\ merge_intersecting_polygons Sample.union_raising
       [Sample.square_a; Sample.square_a]
     = ([Sample.square_a; Sample.square_a],
        [st_error "Erro ao unir polígonos: " GEOSException]).
Proof.
  split; [reflexivity|].
  destruct (merge_falls_back_on_error Sample.union_raising
              [Sample.square_a; Sample.square_a] GEOSException eq_refl)
    as [H1 H2].
  rewrite (surjective_pairing (merge_intersecting_polygons _ _)).
  rewrite H1, H2; [reflexivity | simpl; lia].
Defined.



(** ** PointExtractor *)

Section PointExtractorFacts.

Variable py_float : string -> option float.

(** One turn of the loop, started from an empty list. *)
Lemma parse_placemark_nil (pm : element) :
  parse_placemark py_float pm [] =
  if missing_text pm then Raise AttributeError
  else if not_numeric py_float pm then Raise ValueError
  else Ok (contribution py_float pm).
Proof.
  unfold parse_placemark, missing_text, not_numeric, contribution,
    coordinate_fields, name_of, description_of, point_of, text_strip,
    float_, or_raise.
  destruct (find_descendant_child _ _ pm) as [point|]; [|reflexivity].
  destruct (text point) as [t|]; simpl; [|reflexivity].
  destruct (Str.split "," (Str.strip t)) as [|f0 [|f1 fs]]; simpl;
    try reflexivity.
  destruct (py_float f0) as [lon|]; simpl; [|reflexivity].
  destruct (py_float f1) as [lat|]; reflexivity.
Qed.

(** One turn of the loop appends to the list it is given. *)
Lemma parse_placemark_acc (pm : element) (acc : list placemark) :
  parse_placemark py_float pm acc =
  (added <- parse_placemark py_float pm [] ;; Ok (acc ++ added)).
Proof.
  unfold parse_placemark, text_strip, float_, or_raise, bind.
  destruct (find_descendant_child _ _ pm) as [point|];
    [|now rewrite List.app_nil_r].
  destruct (text point) as [t|]; [|reflexivity].
  destruct (2 <=? length (Str.split "," (Str.strip t)))%nat;
    [|now rewrite List.app_nil_r].
  destruct (py_float _) as [lon|]; [|reflexivity].
  destruct (py_float _) as [lat|]; reflexivity.
Qed.

(** The loop over placemarks that can all be processed. *)
Lemma parse_placemarks_extractable (pms : list element) :
  forallb (extractable py_float) pms = true ->
  forall acc,
    parse_placemarks py_float pms acc
    = Ok (acc ++ flat_map (contribution py_float) pms).
Proof.
  induction pms as [|pm pms IH]; intros H acc; simpl.
  - now rewrite List.app_nil_r.
  - simpl in H; apply andb_true_iff in H; destruct H as [Hpm Hpms].
    unfold extractable in Hpm; apply andb_true_iff in Hpm.
    destruct Hpm as [Ht Hn]; apply negb_true_iff in Ht, Hn.
    rewrite parse_placemark_acc, parse_placemark_nil, Ht, Hn; simpl.
    rewrite (IH Hpms), List.app_assoc; reflexivity.
Qed.

(** The loop over placemarks of which one has text for a number, and none
    lacks its coordinate text. *)
Lemma parse_placemarks_not_numeric (pms : list element) :
  forallb (fun pm => negb (missing_text pm)) pms = true ->
  existsb (not_numeric py_float) pms = true ->
  forall acc, parse_placemarks py_float pms acc = Raise ValueError.
Proof.
  induction pms as [|pm pms IH]; intros Ht Hn acc; simpl in *.
  - discriminate.
  - apply andb_true_iff in Ht; destruct Ht as [Hpm Hpms].
    apply negb_true_iff in Hpm.
    rewrite parse_placemark_acc, parse_placemark_nil, Hpm.
    destruct (not_numeric py_float pm); simpl; [reflexivity|].
    apply IH; assumption.
Qed.

(** The loop over placemarks of which one cannot be processed raises the
    exception of the first of them. *)
Lemma parse_placemarks_failing (pms : list element) :
  forallb (extractable py_float) pms = false ->
  forall acc,
    exists e, parse_placemarks py_float pms acc = Raise e
              /\ (e = AttributeError \/ e = ValueError).
Proof.
  induction pms as [|pm pms IH]; intros H acc; simpl in *.
  - discriminate.
  - rewrite parse_placemark_acc, parse_placemark_nil.
    unfold extractable in H at 1.
    destruct (missing_text pm); [exists AttributeError; auto|].
    destruct (not_numeric py_float pm); [exists ValueError; auto|].
    simpl in *. apply IH; assumption.
Qed.

Lemma extractable_all (pms : list element) :
  (forall pm, In pm pms ->
              missing_text pm = false /\ not_numeric py_float pm = false) ->
  forallb (extractable py_float) pms = true.
Proof.
  intros H; apply forallb_forall; intros pm Hin.
  destruct (H pm Hin) as [Ht Hn]; unfold extractable.
  rewrite Ht, Hn; reflexivity.
Qed.

Lemma extractable_none (pms : list element) (pm : element) :
  In pm pms ->
  missing_text pm = true \/ not_numeric py_float pm = true ->
  forallb (extractable py_float) pms = false.
Proof.
  intros Hin Hpm.
  destruct (forallb (extractable py_float) pms) eqn:F; [|reflexivity].
  pose proof (proj1 (forallb_forall _ _) F pm Hin) as X.
  unfold extractable in X; apply andb_true_iff in X.
  destruct X as [Ht Hn]; apply negb_true_iff in Ht, Hn.
  destruct Hpm; congruence.
Qed.

(** A placemark without point, or with fewer than two fields, adds nothing
    and is never the one that has text for a number. *)
Lemma skipped_placemark (pm : element) :
  has_point pm = false \/ short_fields pm = true ->
  not_numeric py_float pm = false /\ contribution py_float pm = [].
Proof.
  unfold has_point, short_fields, not_numeric, contribution,
    coordinate_fields.
  destruct (point_of pm) as [point|]; [|intros; split; reflexivity].
  intros [H|H]; [discriminate|].
  destruct (text point) as [t|]; simpl in *; [|discriminate].
  destruct (Str.split "," (Str.strip t)) as [|f0 [|f1 fs]];
    try discriminate; split; reflexivity.
Qed.

(** Nor is it one whose coordinates element lacks its text. *)
Lemma skipped_placemark_text (pm : element) :
  has_point pm = false \/ short_fields pm = true ->
  missing_text pm = false.
Proof.
  unfold has_point, short_fields, missing_text, coordinate_fields.
  destruct (point_of pm) as [point|]; [|reflexivity].
  intros [H|H]; [discriminate|].
  destruct (text point) as [t|]; [reflexivity | discriminate].
Qed.

(** C6 (amended). The extractor fails, reporting the error and returning
    (None, None), on a document that is not well-formed, and on a
    well-formed document in which some placemark has a coordinates element
    without text (AttributeError) or a coordinate text of two or more
    fields of which the first or the second is not a float literal
    (ValueError, when no coordinates element lacks its text); on every
    other well-formed document it returns what each placemark contributes,
    in document order. A placemark without a point-geometry child or with
    fewer than two fields contributes nothing and never makes the
    extraction fail. *)
Theorem parse_kml_failure (root : element) :
  parse_kml py_float Malformed
  = ((None, None), [st_error "Erro ao processar KML: " ParseError])
  /\ (forall pm,
         In pm (placemarks_of root) ->
         missing_text pm = true \/ not_numeric py_float pm = true ->
         exists e,
           parse_kml py_float (WellFormed root)
           = ((None, None), [st_error "Erro ao processar KML: " e])
           /\ (e = AttributeError \/ e = ValueError))
  /\ ((forall pm, In pm (placemarks_of root) -> missing_text pm = false) ->
      forall pm,
        In pm (placemarks_of root) -> not_numeric py_float pm = true ->
        parse_kml py_float (WellFormed root)
        = ((None, None), [st_error "Erro ao processar KML: " ValueError]))
  /\ ((forall pm, In pm (placemarks_of root) ->
                  missing_text pm = false
                  /\ not_numeric py_float pm = false) ->
      parse_kml py_float (WellFormed root)
      = ((Some (flat_map (contribution py_float) (placemarks_of root)),
          Some root), []))
  /\ (forall pm,
         has_point pm = false \/ short_fields pm = true ->
         missing_text pm = false
         /\ not_numeric py_float pm = false
         /\ contribution py_float pm = []).
Proof.
  split; [reflexivity|].
  unfold parse_kml, parse_kml_try; simpl.
  fold (placemarks_of root).
  split; [|split; [|split]].
  - intros pm Hin Hpm.
    destruct (parse_placemarks_failing _
                (extractable_none _ pm Hin Hpm) []) as (e & -> & He).
    exists e; split; [reflexivity | exact He].
  - intros Ht pm Hin Hn.
    rewrite parse_placemarks_not_numeric; [reflexivity| |].
    + apply forallb_forall; intros pm' Hin'.
      rewrite (Ht pm' Hin'); reflexivity.
    + apply existsb_exists; eauto.
  - intros H.
    rewrite (parse_placemarks_extractable _ (extractable_all _ H)).
    reflexivity.
  - intros pm H; split; [exact (skipped_placemark_text pm H)|].
    exact (skipped_placemark pm H).
Qed.

(** What a placemark that can be processed adds follows from its fields. *)
Lemma contribution_fields (pm : element) :
  extractable py_float pm = true ->
  field_entry py_float pm (contribution py_float pm).
Proof.
  unfold extractable, missing_text, not_numeric, field_entry, contribution,
    coordinate_fields.
  destruct (point_of pm) as [point|]; [|reflexivity].
  destruct (text point) as [t|]; simpl; [|discriminate].
  destruct (Str.split "," (Str.strip t)) as [|f0 [|f1 fs]]; simpl;
    try reflexivity.
  destruct (py_float f0) as [lon|]; [|discriminate].
  destruct (py_float f1) as [lat|]; [|discriminate].
  intros _; eexists; split; [reflexivity | split; reflexivity].
Qed.

(** C10 (amended). On a well-formed document in which every coordinates
    element has a text whose first two fields, when it has two or more, are
    float literals, the extractor succeeds, and its result is made, in
    document order, of what each placemark adds: nothing for a coordinate
    text of fewer than two fields, and for two or more fields exactly one
    entry whose longitude is the float of the first field and whose
    latitude is the float of the second. On a well-formed document with a
    coordinates element without text, or with a coordinate text of two or
    more fields of which the first or the second is not a float literal,
    no placemark contributes a point: the extractor returns
    (None, None). *)
Theorem parse_kml_fields (root : element) :
  ((forall pm, In pm (placemarks_of root) ->
               missing_text pm = false /\ not_numeric py_float pm = false) ->
   exists groups : list (list placemark),
     parse_kml py_float (WellFormed root)
     = ((Some (concat groups), Some root), [])
     /\ Forall2 (field_entry py_float) (placemarks_of root) groups)
  /\ (forall pm,
         In pm (placemarks_of root) ->
         missing_text pm = true \/ not_numeric py_float pm = true ->
         fst (parse_kml py_float (WellFormed root)) = (None, None)).
Proof.
  split.
  - intros H0.
    pose proof (extractable_all _ H0) as H.
    exists (map (contribution py_float) (placemarks_of root)); split.
    + unfold parse_kml, parse_kml_try; simpl; fold (placemarks_of root).
      rewrite (parse_placemarks_extractable _ H); simpl.
      now rewrite flat_map_concat_map.
    + clear H0.
      induction (placemarks_of root) as [|pm pms IH]; simpl in *;
        constructor.
      * apply contribution_fields.
        now apply andb_true_iff in H.
      * apply IH. now apply andb_true_iff in H.
  - intros pm Hin Hpm.
    unfold parse_kml, parse_kml_try; simpl; fold (placemarks_of root).
    destruct (parse_placemarks_failing _
                (extractable_none _ pm Hin Hpm) []) as (e & -> & _).
    reflexivity.
Qed.

(** A loop that ends well went over placemarks that can be processed. *)
Lemma parse_placemarks_ok (pms : list element) :
  forall acc placemarks,
    parse_placemarks py_float pms acc = Ok placemarks ->
    forallb (extractable py_float) pms = true.
Proof.
  induction pms as [|pm pms IH]; intros acc placemarks H; simpl in *.
  - reflexivity.
  - rewrite parse_placemark_acc, parse_placemark_nil in H.
    unfold extractable at 1.
    destruct (missing_text pm); [discriminate|].
    destruct (not_numeric py_float pm); [discriminate|].
    simpl in *. exact (IH _ _ H).
Qed.

Lemma find_child_lacking (t : string) (e : element) :
  lacks_child t e -> find_child t e = None.
Proof.
  unfold lacks_child, find_child, child_elements, has_tag.
  induction (children e) as [|c cs IH]; intros H; simpl; [reflexivity|].
  destruct (String.eqb (tag c) t) eqn:E.
  - apply String.eqb_eq in E. exfalso. apply (H c); simpl; auto.
  - apply IH. intros c' Hin. apply H. simpl; auto.
Qed.

Lemma find_child_first (t : string) (e c : element) :
  first_child t e c -> find_child t e = Some c.
Proof.
  unfold first_child, find_child, child_elements, has_tag.
  intros (before & after & -> & Ht & Hb).
  induction Hb as [|b before Hbt _ IH]; simpl.
  - apply String.eqb_eq in Ht. rewrite Ht. reflexivity.
  - apply String.eqb_neq in Hbt. rewrite Hbt. exact IH.
Qed.

(** The entry of a contributing placemark has the recorded defaults. *)
Lemma contribution_defaults (pm : element) :
  extractable py_float pm = true ->
  if contributes pm
  then exists e, contribution py_float pm = [e] /\ default_entry pm e
  else contribution py_float pm = [].
Proof.
  unfold extractable, missing_text, not_numeric, contributes, contribution,
    coordinate_fields.
  destruct (point_of pm) as [point|]; [|reflexivity].
  destruct (text point) as [t|]; simpl; [|discriminate].
  destruct (Str.split "," (Str.strip t)) as [|f0 [|f1 fs]]; simpl;
    try reflexivity.
  destruct (py_float f0) as [lon|]; [|discriminate].
  destruct (py_float f1) as [lat|]; [|discriminate].
  intros _; eexists; split; [reflexivity|].
  unfold default_entry, name_of, description_of; simpl.
  repeat split.
  - intros L; now rewrite (find_child_lacking _ _ L).
  - intros L; now rewrite (find_child_lacking _ _ L).
  - intros c F; now rewrite (find_child_first _ _ _ F).
  - intros c F; now rewrite (find_child_first _ _ _ F).
Qed.

Lemma contributions_defaults (pms : list element) :
  forallb (extractable py_float) pms = true ->
  Forall2 default_entry (filter contributes pms)
    (flat_map (contribution py_float) pms).
Proof.
  induction pms as [|pm pms IH]; intros H; simpl in *; [constructor|].
  apply andb_true_iff in H; destruct H as [Hpm Hpms].
  pose proof (contribution_defaults pm Hpm) as C.
  destruct (contributes pm).
  - destruct C as (e & -> & D); simpl. constructor; auto.
  - rewrite C; simpl; auto.
Qed.

(** A placemark that lacks a point is one for which [find] returns [None]. *)
Lemma lacks_point_has_point (pm : element) :
  lacks_point pm -> has_point pm = false.
Proof.
  unfold lacks_point, has_point, point_of, find_descendant_child.
  intros L.
  destruct (flat_map (child_elements (kml "coordinates"))
              (descendants (kml "Point") pm)) as [|c cs] eqn:E;
    [reflexivity|].
  exfalso.
  assert (Hin : In c (flat_map (child_elements (kml "coordinates"))
                        (descendants (kml "Point") pm)))
    by (rewrite E; simpl; auto).
  apply in_flat_map in Hin; destruct Hin as (p & Hp & Hc).
  unfold descendants in Hp; apply filter_In in Hp; destruct Hp as [Hp Hpt].
  unfold child_elements in Hc; apply filter_In in Hc; destruct Hc as [Hc Hct].
  unfold has_tag in *.
  apply String.eqb_eq in Hpt, Hct.
  exact (L p c Hp Hpt Hc Hct).
Qed.

Lemma has_point_contributes (pm : element) :
  has_point pm = false -> contributes pm = false.
Proof.
  unfold has_point, contributes, coordinate_fields.
  destruct (point_of pm); [discriminate | reflexivity].
Qed.

(** The loop passes over the placemarks without point. *)
Lemma parse_placemarks_skip (pms : list element) :
  forall acc,
    parse_placemarks py_float pms acc
    = parse_placemarks py_float (filter has_point pms) acc.
Proof.
  induction pms as [|pm pms IH]; intros acc; simpl; [reflexivity|].
  destruct (has_point pm) eqn:E; simpl.
  - destruct (parse_placemark py_float pm acc); simpl; auto.
  - unfold parse_placemark at 1.
    unfold has_point, point_of in E.
    destruct (find_descendant_child _ _ pm); [discriminate|]; simpl.
    apply IH.
Qed.

(** C7 (amended). When the extractor succeeds on a well-formed document,
    the entries it returns are those of the placemarks with a coordinate
    text of two or more fields, in document order; the entry of a placemark
    without name child has the name "Sem nome", the entry of a placemark
    without description child has the description "", and otherwise they
    are the texts of the first such children. A placemark lacking a
    point-geometry child has no entry, and the loop passes over it without
    raising. *)
Theorem parse_kml_defaults (root : element) (placemarks : list placemark) :
  fst (parse_kml py_float (WellFormed root)) = (Some placemarks, Some root) ->
  Forall2 default_entry (filter contributes (placemarks_of root)) placemarks
  /\ (forall pm, lacks_point pm ->
                 has_point pm = false /\ contributes pm = false)
  /\ (forall pms acc,
         parse_placemarks py_float pms acc
         = parse_placemarks py_float (filter has_point pms) acc).
Proof.
  intros H.
  split; [|split].
  - unfold parse_kml, parse_kml_try in H; simpl in H.
    fold (placemarks_of root) in H.
    destruct (parse_placemarks py_float (placemarks_of root) [])
      as [pl|e] eqn:E; simpl in H; [|discriminate].
    injection H as <-.
    pose proof (parse_placemarks_ok _ _ _ E) as X.
    rewrite (parse_placemarks_extractable _ X) in E; simpl in E.
    injection E as <-.
    now apply contributions_defaults.
  - intros pm L. pose proof (lacks_point_has_point pm L) as P.
    split; [exact P | now apply has_point_contributes].
  - exact parse_placemarks_skip.
Qed.

End PointExtractorFacts.

(** The extraction of [Doc.tolerant]. *)
Lemma parse_kml_failure_witness :
  (forall pm, In pm (placemarks_of Doc.tolerant) ->
              missing_text pm = false
              /\ not_numeric Sample.py_float pm = false)
  /\ parse_kml Sample.py_float (WellFormed Doc.tolerant)
     = ((Some [ PM.Build (Some "Se") (Some "") (-23.5) (-46.6)
                         "-46.6,-23.5,760";
                PM.Build (Some "Sem nome") (Some "") 20 10 "10,20" ],
         Some Doc.tolerant), []).
Proof.
  assert (H : forall pm, In pm (placemarks_of Doc.tolerant) ->
                         missing_text pm = false
                         /\ not_numeric Sample.py_float pm = false).
  { intros pm Hin; cbn in Hin.
    destruct Hin as [<-|[<-|[<-|[<-|[]]]]]; split; reflexivity. }
  split; [exact H|].
  rewrite (proj1 (proj2 (proj2 (proj2
             (parse_kml_failure Sample.py_float Doc.tolerant)))) H).
  reflexivity.
Defined.

(** C6, as stated, fails: a well-formed document with the coordinate text
    "abc,def" in one placemark makes the whole extraction fail, and the
    placemark at 10,20 before it is not returned; so does a well-formed
    document with a coordinates element without text. *)
Lemma placemark_defects_fail :
  parse_kml Sample.py_float (WellFormed Doc.with_text_for_numbers)
  = ((None, None), [st_error "Erro ao processar KML: " ValueError])
  /\ parse_kml Sample.py_float (WellFormed Doc.with_empty_coordinates)
     = ((None, None), [st_error "Erro ao processar KML: " AttributeError]).
Proof. split; reflexivity. Qed.

(** C10, as stated, fails: the coordinate text "10," has two fields, and
    its placemark contributes no point: the extraction fails. *)
Lemma two_fields_without_point :
  map coordinate_fields (placemarks_of Doc.with_empty_field)
  = [Some ["10"; ""]]
  /\ parse_kml Sample.py_float (WellFormed Doc.with_empty_field)
     = ((None, None), [st_error "Erro ao processar KML: " ValueError]).
Proof. split; reflexivity. Qed.

(** The fields of [Doc.tolerant]. *)
Lemma parse_kml_fields_witness :
  (forall pm, In pm (placemarks_of Doc.tolerant) ->
              missing_text pm = false
              /\ not_numeric Sample.py_float pm = false)
  /\ exists groups : list (list placemark),
       parse_kml Sample.py_float (WellFormed Doc.tolerant)
       = ((Some (concat groups), Some Doc.tolerant), [])
       /\ Forall2 (field_entry Sample.py_float)
            (placemarks_of Doc.tolerant) groups.
Proof.
  assert (H : forall pm, In pm (placemarks_of Doc.tolerant) ->
                         missing_text pm = false
                         /\ not_numeric Sample.py_float pm = false).
  { intros pm Hin; cbn in Hin.
    destruct Hin as [<-|[<-|[<-|[<-|[]]]]]; split; reflexivity. }
  split; [exact H|].
  exact (proj1 (parse_kml_fields Sample.py_float Doc.tolerant) H).
Defined.

(** C7, as stated, fails: the placemark without name is recorded under the
    name "Sem nome", which is not "Unnamed". *)
Lemma unnamed_is_sem_nome :
  parse_kml Sample.py_float (WellFormed Doc.unnamed)
  = ((Some [PM.Build (Some "Sem nome") (Some "") 20 10 "10,20"],
      Some Doc.unnamed), [])
  /\ Some "Sem nome" <> Some "Unnamed".
Proof. split; [reflexivity | discriminate]. Qed.

(** The names in [Doc.tolerant]. *)
Lemma parse_kml_defaults_witness :
  fst (parse_kml Sample.py_float (WellFormed Doc.tolerant))
  = (Some [ PM.Build (Some "Se") (Some "") (-23.5) (-46.6)
                     "-46.6,-23.5,760";
            PM.Build (Some "Sem nome") (Some "") 20 10 "10,20" ],
     Some Doc.tolerant)
  /\ Forall2 default_entry (filter contributes (placemarks_of Doc.tolerant))
       [ PM.Build (Some "Se") (Some "") (-23.5) (-46.6) "-46.6,-23.5,760";
         PM.Build (Some "Sem nome") (Some "") 20 10 "10,20" ].
Proof.
  assert (H : fst (parse_kml Sample.py_float (WellFormed Doc.tolerant))
              = (Some [ PM.Build (Some "Se") (Some "") (-23.5) (-46.6)
                                 "-46.6,-23.5,760";
                        PM.Build (Some "Sem nome") (Some "") 20 10 "10,20" ],
                 Some Doc.tolerant)) by reflexivity.
  split; [exact H|].
  exact (proj1 (parse_kml_defaults Sample.py_float Doc.tolerant _ H)).
Defined.

(** ** DocumentWriter *)

Section DocumentWriterFacts.

Variable py_int16 : string -> option Z.
Variable Color_rgb : Z -> Z -> Z -> string.
Variable Color_changealphaint : Z -> string -> string.

Variables (color : string) (opacity : float).
Variables (r g b alpha : Z).

Hypothesis red : py_int16 (Str.slice 1 3 color) = Some r.
Hypothesis green : py_int16 (Str.slice 3 5 color) = Some g.
Hypothesis blue : py_int16 (Str.slice 5 7 color) = Some b.
Hypothesis alpha_of_opacity : int_of_float (opacity * 255) = Ok alpha.

Lemma area_polygon_styled (i : nat) (poly : polygon) :
  area_polygon py_int16 Color_rgb Color_changealphaint i poly color opacity
  = Ok (FPolygon
          (NewPolygon ("Área " ++ Str.of_nat (i + 1)) (Color_rgb r g b) 2
             (Color_changealphaint alpha (Color_rgb r g b))
             (kml_coords (exterior poly)))).
Proof.
  unfold area_polygon, int16, or_raise.
  rewrite red, green, blue; simpl.
  rewrite alpha_of_opacity; reflexivity.
Qed.

(** The second loop over a list of polygons, from index [i] on. *)
Lemma add_polygons_areas (polys : list polygon) :
  forall (i : nat) (kml : list feature),
    add_polygons py_int16 Color_rgb Color_changealphaint i
      (map GPolygon polys) color opacity kml
    = Ok (kml
          ++ map FPolygon
               (areas_from (Color_rgb r g b)
                  (Color_changealphaint alpha (Color_rgb r g b)) i polys)).
Proof.
  induction polys as [|poly polys IH]; intros i kml; simpl.
  - now rewrite List.app_nil_r.
  - rewrite area_polygon_styled; simpl.
    rewrite IH, <- List.app_assoc; reflexivity.
Qed.

Lemma areas_from_nth (line fill : string) (polys : list polygon) :
  forall (i k : nat) (poly : polygon),
    nth_error polys k = Some poly ->
    exists a, nth_error (areas_from line fill i polys) k = Some a
              /\ area_of (i + k) poly a.
Proof.
  induction polys as [|p polys IH]; intros i k poly H.
  - destruct k; discriminate.
  - destruct k as [|k]; simpl in *.
    + injection H as <-. eexists; split; [reflexivity|].
      unfold area_of; simpl; rewrite Nat.add_0_r; split; [reflexivity|].
      unfold kml_coords; apply map_ext; intros [lat lon]; reflexivity.
    + destruct (IH (S i) k poly H) as (a & Ha & Hof).
      exists a; split; [exact Ha|].
      now replace (i + S k)%nat with (S i + k)%nat by lia.
Qed.

Lemma areas_from_length (line fill : string) (polys : list polygon) :
  forall i, length (areas_from line fill i polys) = length polys.
Proof.
  induction polys as [|p polys IH]; intros i; simpl; auto.
Qed.

(** C8 (amended). For a colour whose three pairs of digits are read by
    int(_, 16) and an opacity whose product with 255 has an integer part,
    the writer returns, after one marker per original point, one area
    entity per merged polygon, in order; the i-th of them, counting from 1,
    is named "Área i" and holds the ring of the i-th polygon with each
    (latitude, longitude) pair turned into (longitude, latitude). *)
Theorem create_output_kml_areas (polygons : list polygon)
        (placemarks : list placemark) (radius : float) :
  exists areas : list polygon_feature,
    create_output_kml py_int16 Color_rgb Color_changealphaint
      (map GPolygon polygons) placemarks radius color opacity
    = Ok (map original_point placemarks ++ map FPolygon areas)
    /\ length areas = length polygons
    /\ forall (i : nat) (poly : polygon),
        nth_error polygons i = Some poly ->
        exists a, nth_error areas i = Some a /\ area_of i poly a.
Proof.
  eexists; split; [|split].
  - unfold create_output_kml. apply add_polygons_areas.
  - apply areas_from_length.
  - intros i poly H.
    exact (areas_from_nth _ _ polygons 0 i poly H).
Qed.

End DocumentWriterFacts.

(** C8, as stated, fails: the first area entity is named "Área 1", which
    is not the string "Area 1". *)
Lemma area_name_is_accented :
  create_output_kml Sample.py_int16 Sample.Color_rgb
    Sample.Color_changealphaint [GPolygon Sample.square_a] [] 40 "#FF0000" 0.3
  = Ok [FPolygon
          (NewPolygon "Área 1" "ff0000ff" 2 "4c0000ff"
             [(0, 0); (1, 0); (1, 1); (0, 1); (0, 0)])]
  /\ "Área 1"%string <> "Area 1"%string.
Proof. split; [reflexivity | discriminate]. Qed.

(** The document written for two squares and one point, in red at
    opacity 0.3. *)
Lemma create_output_kml_areas_witness :
  (Sample.py_int16 (Str.slice 1 3 "#FF0000") = Some 255%Z
   /\ Sample.py_int16 (Str.slice 3 5 "#FF0000") = Some 0%Z
   /\ Sample.py_int16 (Str.slice 5 7 "#FF0000") = Some 0%Z
   /\ int_of_float (0.3 * 255) = Ok 76%Z)
  /\ exists areas : list polygon_feature,
       create_output_kml Sample.py_int16 Sample.Color_rgb
         Sample.Color_changealphaint
         (map GPolygon [Sample.square_a; Sample.square_b])
         [PM.Build (Some "Se") (Some "") (-23.5) (-46.6) "-46.6,-23.5,760"]
         40 "#FF0000" 0.3
       = Ok (map original_point
               [PM.Build (Some "Se") (Some "") (-23.5) (-46.6)
                         "-46.6,-23.5,760"]
             ++ map FPolygon areas)
       /\ length areas = 2%nat
       /\ forall (i : nat) (poly : polygon),
           nth_error [Sample.square_a; Sample.square_b] i = Some poly ->
           exists a, nth_error areas i = Some a /\ area_of i poly a.
Proof.
  assert (H : Sample.py_int16 (Str.slice 1 3 "#FF0000") = Some 255%Z
              /\ Sample.py_int16 (Str.slice 3 5 "#FF0000") = Some 0%Z
              /\ Sample.py_int16 (Str.slice 5 7 "#FF0000") = Some 0%Z
              /\ int_of_float (0.3 * 255) = Ok 76%Z).
  { repeat split; reflexivity. }
  split; [exact H|].
  destruct H as (H1 & H2 & H3 & H4).
  exact (create_output_kml_areas Sample.py_int16 Sample.Color_rgb
           Sample.Color_changealphaint "#FF0000" 0.3 255 0 0 76
           H1 H2 H3 H4 [Sample.square_a; Sample.square_b]
           [PM.Build (Some "Se") (Some "") (-23.5) (-46.6) "-46.6,-23.5,760"]
           40).
Defined.

(** * Further properties *)

(** ** PointExtractor *)

Section PointExtractorMore.

Variable py_float : string -> option float.

Lemma extractable_no_error (pm : element) :
  extractable py_float pm = true <-> placemark_error py_float pm = None.
Proof.
  unfold extractable, placemark_error.
  destruct (missing_text pm), (not_numeric py_float pm); simpl;
    split; congruence.
Qed.

(** The loop stops at the first placemark that raises. *)
Lemma parse_placemarks_stops (before after : list element) (pm : element)
      (e : exn) :
  forallb (extractable py_float) before = true ->
  placemark_error py_float pm = Some e ->
  forall acc,
    parse_placemarks py_float (before ++ pm :: after) acc = Raise e.
Proof.
  induction before as [|b before IH]; intros Hb He acc; simpl in *.
  - rewrite parse_placemark_acc, parse_placemark_nil.
    unfold placemark_error in He.
    destruct (missing_text pm); [now injection He as <-|].
    destruct (not_numeric py_float pm); [now injection He as <-|].
    discriminate.
  - apply andb_true_iff in Hb; destruct Hb as [Hb1 Hb2].
    unfold extractable in Hb1; apply andb_true_iff in Hb1.
    destruct Hb1 as [Ht Hn]; apply negb_true_iff in Ht, Hn.
    rewrite parse_placemark_acc, parse_placemark_nil, Ht, Hn; simpl.
    now apply IH.
Qed.

(** A list with a placemark that raises splits at the first of them. *)
Lemma first_failing (pms : list element) :
  forallb (extractable py_float) pms = false ->
  exists before pm after e,
    pms = before ++ pm :: after
    /\ forallb (extractable py_float) before = true
    /\ placemark_error py_float pm = Some e.
Proof.
  induction pms as [|p pms IH]; intros H; simpl in H; [discriminate|].
  destruct (extractable py_float p) eqn:E; simpl in H.
  - destruct (IH H) as (before & pm & after & e & -> & Hb & He).
    exists (p :: before), pm, after, e; simpl; rewrite E; auto.
  - exists [], p, pms.
    destruct (placemark_error py_float p) as [e|] eqn:Pe.
    + exists e; auto.
    + apply extractable_no_error in Pe; congruence.
Qed.

(** X1. On a well-formed document the extractor returns (None, None)
    exactly when some placemark has a coordinates element without text, or
    a coordinate text of two or more fields whose first or second field is
    not a float literal. *)
Theorem parse_kml_fails_iff (root : element) :
  fst (parse_kml py_float (WellFormed root)) = (None, None)
  <-> existsb (fun pm => negb (extractable py_float pm)) (placemarks_of root)
      = true.
Proof.
  unfold parse_kml, parse_kml_try; simpl; fold (placemarks_of root).
  destruct (forallb (extractable py_float) (placemarks_of root)) eqn:F.
  - rewrite (parse_placemarks_extractable _ _ F); simpl.
    split; [discriminate|].
    intros H; apply existsb_exists in H; destruct H as (pm & Hin & Hpm).
    rewrite (proj1 (forallb_forall _ _) F pm Hin) in Hpm; discriminate.
  - destruct (first_failing _ F) as (before & pm & after & e & E & Hb & He).
    rewrite E, (parse_placemarks_stops before after pm e Hb He); simpl.
    split; [intros _ | reflexivity].
    apply existsb_exists; exists pm; split.
    + apply in_or_app; right; simpl; auto.
    + apply negb_true_iff.
      destruct (extractable py_float pm) eqn:X; [|reflexivity].
      apply extractable_no_error in X; congruence.
Qed.

(** X2. The error the extractor reports is the one of the first placemark,
    in document order, that raises: AttributeError for a coordinates
    element without text, ValueError for a field that is not a float
    literal; the placemarks after it are not read. *)
Theorem parse_kml_reports_first_error (root : element)
        (before after : list element) (pm : element) (e : exn) :
  placemarks_of root = before ++ pm :: after ->
  forallb (extractable py_float) before = true ->
  placemark_error py_float pm = Some e ->
  parse_kml py_float (WellFormed root)
  = ((None, None), [st_error "Erro ao processar KML: " e])
  /\ (e = AttributeError \/ e = ValueError).
Proof.
  intros E Hb He; split.
  - unfold parse_kml, parse_kml_try; simpl; fold (placemarks_of root).
    rewrite E, (parse_placemarks_stops before after pm e Hb He).
    reflexivity.
  - unfold placemark_error in He.
    destruct (missing_text pm); [left; congruence|].
    destruct (not_numeric py_float pm); [right; congruence | discriminate].
Qed.

Lemma no_placemark_below (root : element) :
  (forall e, In e (flat_map iter (children root)) ->
             tag e <> kml "Placemark") ->
  placemarks_of root = [].
Proof.
  intros H; unfold placemarks_of, findall_descendants, descendants.
  induction (flat_map iter (children root)) as [|e es IH]; [reflexivity|].
  simpl. unfold has_tag at 1.
  destruct (String.eqb (tag e) (kml "Placemark")) eqn:E.
  - apply String.eqb_eq in E. exfalso; apply (H e); simpl; auto.
  - apply IH; intros e' Hin; apply H; simpl; auto.
Qed.

(** X3. A well-formed document with no Placemark element below its root
    gives the empty list of points and the root, without any error: the
    root itself is not looked at, and [float()] is never called. *)
Theorem parse_kml_without_placemarks (root : element) :
  (forall e, In e (flat_map iter (children root)) ->
             tag e <> kml "Placemark") ->
  parse_kml py_float (WellFormed root) = ((Some [], Some root), []).
Proof.
  intros H; unfold parse_kml, parse_kml_try; simpl.
  fold (placemarks_of root); rewrite (no_placemark_below root H).
  reflexivity.
Qed.

Lemma contribution_text (pm : element) :
  extractable py_float pm = true ->
  map PM.coords (contribution py_float pm)
  = if contributes pm then [coordinate_text pm] else [].
Proof.
  unfold extractable, missing_text, not_numeric, contributes, contribution,
    coordinate_fields, coordinate_text.
  destruct (point_of pm) as [point|]; [|reflexivity].
  destruct (text point) as [t|]; simpl; [|discriminate].
  destruct (Str.split "," (Str.strip t)) as [|f0 [|f1 fs]]; simpl;
    try reflexivity.
  destruct (py_float f0) as [lon|]; [|discriminate].
  destruct (py_float f1) as [lat|]; [|discriminate].
  reflexivity.
Qed.

Lemma contributions_text (pms : list element) :
  forallb (extractable py_float) pms = true ->
  map PM.coords (flat_map (contribution py_float) pms)
  = map coordinate_text (filter contributes pms).
Proof.
  induction pms as [|pm pms IH]; intros H; simpl in *; [reflexivity|].
  apply andb_true_iff in H; destruct H as [Hpm Hpms].
  rewrite map_app, (contribution_text pm Hpm), (IH Hpms).
  destruct (contributes pm); reflexivity.
Qed.

(** X4. When the extractor succeeds, its entries are, in document order,
    those of the placemarks whose coordinate text has two or more fields:
    each entry keeps the whole stripped text, altitude included, under
    'coords', and there are never more entries than Placemark elements. *)
Theorem parse_kml_keeps_order (root : element) (placemarks : list placemark) :
  fst (parse_kml py_float (WellFormed root)) = (Some placemarks, Some root) ->
  map PM.coords placemarks
  = map coordinate_text (filter contributes (placemarks_of root))
  /\ (length placemarks <= length (placemarks_of root))%nat.
Proof.
  intros H.
  unfold parse_kml, parse_kml_try in H; simpl in H.
  fold (placemarks_of root) in H.
  destruct (parse_placemarks py_float (placemarks_of root) [])
    as [pl|e] eqn:E; simpl in H; [|discriminate].
  injection H as <-.
  pose proof (parse_placemarks_ok _ _ _ _ E) as X.
  rewrite (parse_placemarks_extractable _ _ X) in E; simpl in E.
  injection E as <-.
  pose proof (contributions_text _ X) as T.
  split; [exact T|].
  apply (f_equal (@length string)) in T.
  rewrite !length_map in T. rewrite T.
  apply filter_length_le.
Qed.

End PointExtractorMore.

(** The error reported for [Doc.with_text_for_numbers]. *)
Lemma parse_kml_reports_first_error_witness :
  (placemarks_of Doc.with_text_for_numbers
   = [Doc.with_point [] (Some "10,20")]
     ++ Doc.with_point [] (Some "abc,def") :: []
   /\ forallb (extractable Sample.py_float)
        [Doc.with_point [] (Some "10,20")] = true
   /\ placemark_error Sample.py_float (Doc.with_point [] (Some "abc,def"))
      = Some ValueError)
  /\ parse_kml Sample.py_float (WellFormed Doc.with_text_for_numbers)
     = ((None, None), [st_error "Erro ao processar KML: " ValueError]).
Proof.
  assert (H : placemarks_of Doc.with_text_for_numbers
              = [Doc.with_point [] (Some "10,20")]
                ++ Doc.with_point [] (Some "abc,def") :: []
              /\ forallb (extractable Sample.py_float)
                   [Doc.with_point [] (Some "10,20")] = true
              /\ placemark_error Sample.py_float
                   (Doc.with_point [] (Some "abc,def")) = Some ValueError).
  { repeat split; reflexivity. }
  split; [exact H|].
  destruct H as (H1 & H2 & H3).
  exact (proj1 (parse_kml_reports_first_error Sample.py_float
                  Doc.with_text_for_numbers _ _ _ _ H1 H2 H3)).
Defined.

(** The extraction of [MoreDoc.no_placemark]. *)
Lemma parse_kml_without_placemarks_witness :
  (forall e, In e (flat_map iter (children MoreDoc.no_placemark)) ->
             tag e <> kml "Placemark")
  /\ parse_kml Sample.py_float (WellFormed MoreDoc.no_placemark)
     = ((Some [], Some MoreDoc.no_placemark), []).
Proof.
  assert (H : forall e,
             In e (flat_map iter (children MoreDoc.no_placemark)) ->
             tag e <> kml "Placemark").
  { intros e Hin; simpl in Hin.
    destruct Hin as [<-|[<-|[<-|[]]]]; discriminate. }
  split; [exact H|].
  exact (parse_kml_without_placemarks Sample.py_float MoreDoc.no_placemark H).
Defined.

(** The coordinate texts kept for [Doc.tolerant]. *)
Lemma parse_kml_keeps_order_witness :
  fst (parse_kml Sample.py_float (WellFormed Doc.tolerant))
  = (Some [ PM.Build (Some "Se") (Some "") (-23.5) (-46.6)
                     "-46.6,-23.5,760";
            PM.Build (Some "Sem nome") (Some "") 20 10 "10,20" ],
     Some Doc.tolerant)
  /\ map coordinate_text (filter contributes (placemarks_of Doc.tolerant))
     = ["-46.6,-23.5,760"; "10,20"]%string.
Proof.
  assert (H : fst (parse_kml Sample.py_float (WellFormed Doc.tolerant))
              = (Some [ PM.Build (Some "Se") (Some "") (-23.5) (-46.6)
                                 "-46.6,-23.5,760";
                        PM.Build (Some "Sem nome") (Some "") 20 10 "10,20" ],
                 Some Doc.tolerant)) by reflexivity.
  split; [exact H|].
  rewrite <- (proj1 (parse_kml_keeps_order Sample.py_float Doc.tolerant _ H)).
  reflexivity.
Defined.

(** ** MetricBuffer *)

(** *** Signs in binary64 arithmetic *)

Module FloatSigns.

Import FloatFacts.

Lemma SFopp_binary_round_aux (s : bool) (m e : Z) (l : location) :
  SFopp (binary_round_aux prec emax s m e l)
  = binary_round_aux prec emax (negb s) m e l.
Proof.
  unfold binary_round_aux.
  destruct (shr_fexp prec emax m e l) as [mrs' e'].
  destruct (shr_fexp prec emax _ e' loc_Exact) as [mrs'' e''].
  destruct (shr_m mrs'') as [|p|p]; try reflexivity.
  destruct (Z.leb e'' (Z.sub emax prec)); reflexivity.
Qed.

Lemma SFdiv_opp_l (x y : spec_float) :
  SF64div (SFopp x) y = SFopp (SF64div x y).
Proof.
  unfold SF64div, SFdiv.
  destruct x as [sx|sx| |sx mx ex], y as [sy|sy| |sy my ey]; simpl;
    try reflexivity; try (destruct sx, sy; reflexivity).
  destruct (SFdiv_core_binary prec emax (Zpos mx) ex (Zpos my) ey)
    as [[mz ez] lz].
  rewrite SFopp_binary_round_aux.
  destruct sx, sy; reflexivity.
Qed.

Lemma SFsub_opp_r (x y : spec_float) :
  SF64sub x (SFopp y) = SF64add x y.
Proof.
  unfold SF64sub, SF64add, SFsub, SFadd.
  destruct x as [sx|sx| |sx mx ex], y as [sy|sy| |sy my ey]; simpl;
    try reflexivity; try (destruct sx, sy; reflexivity).
  all: try now rewrite negb_involutive.
Qed.

Lemma SFadd_opp_r (x y : spec_float) :
  SF64add x (SFopp y) = SF64sub x y.
Proof.
  unfold SF64sub, SF64add, SFsub, SFadd.
  destruct x as [sx|sx| |sx mx ex], y as [sy|sy| |sy my ey]; simpl;
    try reflexivity; try (destruct sx, sy; reflexivity).
Qed.

Lemma div_opp_l (x y : float) : (- x) / y = - (x / y).
Proof.
  apply Prim2SF_inj.
  now rewrite opp_spec, !div_spec, opp_spec, SFdiv_opp_l.
Qed.

Lemma sub_opp_r (x y : float) : x - (- y) = x + y.
Proof.
  apply Prim2SF_inj.
  now rewrite sub_spec, opp_spec, add_spec, SFsub_opp_r.
Qed.

Lemma add_opp_r (x y : float) : x + (- y) = x - y.
Proof.
  apply Prim2SF_inj.
  now rewrite add_spec, opp_spec, sub_spec, SFadd_opp_r.
Qed.

Lemma Prim2SF_is_finite (x : float) :
  sf_finite (Prim2SF x) -> is_finite x = true.
Proof.
  intros H; unfold is_finite.
  rewrite is_nan_false.
  - unfold is_infinity; rewrite eqb_spec, abs_spec.
    destruct (Prim2SF x) as [s|s| |s m e]; try contradiction; reflexivity.
  - intros E; rewrite E in H; exact H.
Qed.

Lemma is_finite_opp (x : float) : is_finite x = true -> is_finite (- x) = true.
Proof.
  intros H; apply Prim2SF_is_finite; rewrite opp_spec.
  apply is_finite_Prim2SF in H.
  destruct (Prim2SF x); simpl in *; auto.
Qed.

End FloatSigns.

Section MetricBufferMore.

Import FloatFacts FloatSigns.

Variable libm_cos : float -> float.

(** X5. For a finite latitude, longitude and radius the buffer raises
    nothing but ValueError and ZeroDivisionError: ValueError exactly when
    math.cos does, ZeroDivisionError exactly when math.cos returns a cosine
    whose product with 111000 is zero. A longitude or a radius that is a
    NaN makes the polygon constructor raise GEOSException, once math.cos
    and the division have passed. *)
Theorem create_square_polygon_errors (lat lon r : float) :
  (is_finite lat = true -> is_finite lon = true -> is_finite r = true ->
   (create_square_polygon libm_cos lat lon r = Raise ValueError
    <-> Math.cos libm_cos (Math.radians lat) = Raise ValueError)
   /\ (create_square_polygon libm_cos lat lon r = Raise ZeroDivisionError
       <-> exists c, Math.cos libm_cos (Math.radians lat) = Ok c
                     /\ (111000 * c =? 0) = true)
   /\ (forall e, create_square_polygon libm_cos lat lon r = Raise e ->
                 e = ValueError \/ e = ZeroDivisionError))
  /\ (is_nan lon = true \/ is_nan r = true ->
      forall c, Math.cos libm_cos (Math.radians lat) = Ok c ->
                (111000 * c =? 0) = false ->
                create_square_polygon libm_cos lat lon r
                = Raise GEOSException).
Proof.
  split.
  - intros Hlat Hlon Hr.
    rewrite (create_square_polygon_finite_inputs libm_cos lat lon r
               Hlat Hlon Hr).
    unfold Math.cos.
    destruct (is_nan _ && negb (is_nan _)); simpl.
    + split; [tauto|]. split; [|intros e H; left; congruence].
      split; [discriminate | intros (c & H & _); discriminate].
    + destruct (is_infinity _ && is_finite _); simpl.
      * split; [tauto|]. split; [|intros e H; left; congruence].
        split; [discriminate | intros (c & H & _); discriminate].
      * destruct (111000 * libm_cos (Math.radians lat) =? 0) eqn:Z.
        -- split; [split; discriminate|].
           split; [|intros e H; right; congruence].
           split; [eauto | reflexivity].
        -- split; [split; discriminate|].
           split; [|discriminate].
           split; [discriminate|].
           intros (c & H & Hz); injection H as <-; congruence.
  - intros Hnan c Hc Hz.
    rewrite create_square_polygon_unfold, Hc, Hz, polygon_of_square.
    destruct Hnan as [H|H].
    + rewrite (sub_nan_l lon _ H), orb_true_r; reflexivity.
    + rewrite (sub_nan_r lat _ (div_nan_l r 111000 H)); reflexivity.
Qed.

(** X6. For finite inputs and a regular cosine, the buffer of radius -r
    returns the square of radius r, walked from the opposite corner: its
    ring is the third, fourth, first, second and third vertex of the ring
    for r. *)
Theorem negative_radius_is_opposite_corner (lat lon r : float) :
  sf_finite (Prim2SF lat) -> is_finite lon = true -> is_finite r = true ->
  cos_regular (libm_cos (Math.radians lat)) ->
  let a := r / 111000 in
  let b := r / (111000 * libm_cos (Math.radians lat)) in
  create_square_polygon libm_cos lat lon r
  = Ok (Polygon [ (lat - a, lon - b); (lat - a, lon + b);
                  (lat + a, lon + b); (lat + a, lon - b);
                  (lat - a, lon - b) ] [])
  /\ create_square_polygon libm_cos lat lon (- r)
     = Ok (Polygon [ (lat + a, lon + b); (lat + a, lon - b);
                     (lat - a, lon - b); (lat - a, lon + b);
                     (lat + a, lon + b) ] []).
Proof.
  intros Hlat Hlon Hr Hc a b; split.
  - exact (create_square_polygon_finite libm_cos lat lon r Hlat Hlon Hr Hc).
  - rewrite (create_square_polygon_finite libm_cos lat lon (- r) Hlat Hlon
               (is_finite_opp r Hr) Hc).
    unfold square_vertices.
    rewrite !div_opp_l, !sub_opp_r, !add_opp_r.
    reflexivity.
Qed.

End MetricBufferMore.

(** The buffer of radius -40 at latitude 0 and a longitude that is a
    NaN. *)
Lemma create_square_polygon_errors_witness :
  ((is_nan nan = true \/ is_nan (-40) = true)
   /\ Math.cos Sample.libm_cos (Math.radians 0) = Ok 1
   /\ (111000 * 1 =? 0) = false)
  /\ create_square_polygon Sample.libm_cos 0 nan (-40) = Raise GEOSException.
Proof.
  assert (H : (is_nan nan = true \/ is_nan (-40) = true)
              /\ Math.cos Sample.libm_cos (Math.radians 0) = Ok 1
              /\ (111000 * 1 =? 0) = false).
  { split; [left; reflexivity | split; reflexivity]. }
  split; [exact H|].
  destruct H as (H1 & H2 & H3).
  exact (proj2 (create_square_polygon_errors Sample.libm_cos 0 nan (-40))
           H1 1 H2 H3).
Defined.

(** The squares of radius 40 and -40 around (-23.5, -46.6). *)
Lemma negative_radius_is_opposite_corner_witness :
  (sf_finite (Prim2SF (-23.5)) /\ is_finite (-46.6) = true
   /\ is_finite 40 = true
   /\ cos_regular (Sample.libm_cos (Math.radians (-23.5))))
  /\ create_square_polygon Sample.libm_cos (-23.5) (-46.6) (- 40)
     = Ok (Polygon [ (-23.49963963963964, -46.59960704825079);
                     (-23.49963963963964, -46.600392951749214);
                     (-23.50036036036036, -46.600392951749214);
                     (-23.50036036036036, -46.59960704825079);
                     (-23.49963963963964, -46.59960704825079) ] []).
Proof.
  assert (H : sf_finite (Prim2SF (-23.5)) /\ is_finite (-46.6) = true
              /\ is_finite 40 = true
              /\ cos_regular (Sample.libm_cos (Math.radians (-23.5)))).
  { split; [vm_compute; exact I | repeat split; reflexivity]. }
  split; [exact H|].
  destruct H as (H1 & H2 & H3 & H4).
  exact (proj2 (negative_radius_is_opposite_corner Sample.libm_cos
                  (-23.5) (-46.6) 40 H1 H2 H3 H4)).
Defined.

(** ** PolygonMerger *)

Section PolygonMergerMore.

Variable unary_union : list polygon -> result geometry.

(** X7. The merge reports an error exactly when it was given two or more
    polygons and their union raised; in every other case nothing is
    reported. *)
Theorem merge_reports_iff (P : list polygon) :
  snd (merge_intersecting_polygons unary_union P) <> []
  <-> (2 <= length P)%nat /\ exists e, unary_union P = Raise e.
Proof.
  destruct (merge_cases unary_union P) as [L|gs L E|m L E|t L E|e L E];
    simpl; split; try congruence; try discriminate; eauto.
  - intros [L' _]; lia.
  - intros [_ [e E']]; congruence.
  - intros [_ [e E']]; congruence.
  - intros [_ [e E']]; congruence.
Qed.

(** X8. The merge consults the union only for lists of two or more
    polygons: an empty list and a single polygon come back as they are
    whatever the union would do with them. *)
Theorem merge_short_lists_skip_union
        (other_union : list polygon -> result geometry) (P : list polygon) :
  (forall Q, (2 <= length Q)%nat -> unary_union Q = other_union Q) ->
  merge_intersecting_polygons unary_union P
  = merge_intersecting_polygons other_union P
  /\ ((length P <= 1)%nat ->
      merge_intersecting_polygons unary_union P = (P, [])).
Proof.
  intros H. destruct P as [|p [|q P]]; simpl; auto.
  split; [|intros; lia].
  rewrite (H (p :: q :: P)) by (simpl; lia). reflexivity.
Qed.

End PolygonMergerMore.

(** A union that raises on short lists changes nothing for a single
    square. *)
Lemma merge_short_lists_skip_union_witness :
  (forall Q, (2 <= length Q)%nat ->
             Sample.union_of_disjoint Q
             = (fun Q' => if (length Q' <? 2)%nat then Raise GEOSException
                          else Sample.union_of_disjoint Q') Q)
  /\ merge_intersecting_polygons
       (fun Q' => if (length Q' <? 2)%nat then Raise GEOSException
                  else Sample.union_of_disjoint Q') [Sample.square_a]
     = ([Sample.square_a], []).
Proof.
  assert (H : forall Q, (2 <= length Q)%nat ->
                Sample.union_of_disjoint Q
                = (fun Q' => if (length Q' <? 2)%nat then Raise GEOSException
                             else Sample.union_of_disjoint Q') Q).
  { intros Q L; simpl.
    destruct (length Q <? 2)%nat eqn:E; [|reflexivity].
    apply Nat.ltb_lt in E; lia. }
  split; [exact H|].
  rewrite <- (proj1 (merge_short_lists_skip_union Sample.union_of_disjoint
                       _ [Sample.square_a] H)).
  reflexivity.
Defined.

(** ** DocumentWriter *)

Section DocumentWriterMore.

Variable py_int16 : string -> option Z.
Variable Color_rgb : Z -> Z -> Z -> string.
Variable Color_changealphaint : Z -> string -> string.

Local Abbreviation writer := (create_output_kml py_int16 Color_rgb
                                Color_changealphaint).
Local Abbreviation loop := (add_polygons py_int16 Color_rgb
                              Color_changealphaint).
Local Abbreviation area := (area_polygon py_int16 Color_rgb
                              Color_changealphaint).

(** An area entity that was built has the name and the ring of its
    polygon. *)
Lemma area_polygon_ok (i : nat) (poly : polygon) (color : string)
      (opacity : float) (f : feature) :
  area i poly color opacity = Ok f ->
  exists a, f = FPolygon a /\ area_of i poly a.
Proof.
  unfold area_polygon, int16, or_raise.
  destruct (py_int16 (Str.slice 1 3 color)) as [r|]; [|discriminate].
  destruct (py_int16 (Str.slice 3 5 color)) as [g|]; [|discriminate].
  destruct (py_int16 (Str.slice 5 7 color)) as [b|]; [|discriminate].
  simpl. destruct (int_of_float (opacity * 255)) as [alpha|e];
    [|discriminate].
  simpl; intros H; injection H as <-.
  eexists; split; [reflexivity|].
  split; [reflexivity|]; simpl.
  unfold kml_coords; apply map_ext; intros [lat lon]; reflexivity.
Qed.

(** The second loop, when it ends well, has appended one area entity per
    polygon of the list, named after the polygon's index. *)
Lemma add_polygons_ok (polygons : list geometry) (color : string)
      (opacity : float) :
  forall (i : nat) (kml kml' : list feature),
    loop i polygons color opacity kml = Ok kml' ->
    exists areas,
      kml' = kml ++ map FPolygon areas
      /\ Forall2 area_at (indexed_polygons i polygons) areas.
Proof.
  induction polygons as [|g polygons IH]; intros i kml kml' H; simpl in H.
  - injection H as <-. exists []; split; [now rewrite List.app_nil_r|].
    constructor.
  - destruct g as [poly|gs|t]; simpl.
    + destruct (area i poly color opacity) as [f|e] eqn:A; simpl in H;
        [|discriminate].
      destruct (area_polygon_ok _ _ _ _ _ A) as (a & -> & Ha).
      destruct (IH _ _ _ H) as (areas & -> & Hareas).
      exists (a :: areas); split.
      * now rewrite <- List.app_assoc.
      * constructor; assumption.
    + exact (IH _ _ _ H).
    + exact (IH _ _ _ H).
Qed.

Lemma indexed_polygons_nth (polygons : list geometry) :
  forall (i k : nat) (poly : polygon),
    In (k, poly) (indexed_polygons i polygons)
    <-> (i <= k)%nat /\ nth_error polygons (k - i) = Some (GPolygon poly).
Proof.
  induction polygons as [|g polygons IH]; intros i k poly; simpl.
  - split; [tauto|]. intros [_ H]. destruct (k - i)%nat; discriminate.
  - assert (Step : In (k, poly) (indexed_polygons (S i) polygons)
                   <-> (i < k)%nat
                       /\ nth_error (g :: polygons) (k - i)
                          = Some (GPolygon poly)).
    { rewrite IH. split; intros [L H]; (split; [lia|]).
      - replace (k - i)%nat with (S (k - S i)) by lia. exact H.
      - replace (k - i)%nat with (S (k - S i)) in H by lia. exact H. }
    assert (Here : forall x, (i <= k)%nat ->
                     nth_error (g :: polygons) (k - i) = Some x ->
                     ~ (i < k)%nat -> k = i /\ g = x).
    { intros x L H N. assert (k = i) by lia; subst k.
      rewrite Nat.sub_diag in H; simpl in H. split; congruence. }
    destruct g as [p|gs|t]; simpl.
    + rewrite Step. split.
      * intros [E|[L H]].
        -- injection E as <- <-. rewrite Nat.sub_diag; simpl; auto.
        -- split; [lia | exact H].
      * intros [L H]. destruct (Nat.eq_dec k i) as [->|N].
        -- rewrite Nat.sub_diag in H; simpl in H. left; congruence.
        -- right; split; [lia | exact H].
    + rewrite Step. split.
      * intros [L H]; split; [lia | exact H].
      * intros [L H]. destruct (Nat.eq_dec k i) as [->|N].
        -- rewrite Nat.sub_diag in H; simpl in H; discriminate.
        -- split; [lia | exact H].
    + rewrite Step. split.
      * intros [L H]; split; [lia | exact H].
      * intros [L H]. destruct (Nat.eq_dec k i) as [->|N].
        -- rewrite Nat.sub_diag in H; simpl in H; discriminate.
        -- split; [lia | exact H].
Qed.

(** X9. Whatever the colour and the opacity, the writer given no Polygon
    (an empty list, or geometries of other types only) returns the markers
    of the original points and nothing else: the colour is never read. *)
Theorem create_output_kml_without_polygons (polygons : list geometry)
        (placemarks : list placemark) (radius : float) (color : string)
        (opacity : float) :
  forallb (fun g => negb (is_polygon g)) polygons = true ->
  writer polygons placemarks radius color opacity
  = Ok (map original_point placemarks).
Proof.
  unfold create_output_kml.
  generalize (map original_point placemarks) as kml.
  generalize 0%nat as i.
  induction polygons as [|g polygons IH]; intros i kml H; simpl in *.
  - reflexivity.
  - apply andb_true_iff in H; destruct H as [Hg H].
    destruct g; try discriminate; now apply IH.
Qed.

(** The loop raises [ValueError] at its first polygon when the colour has a
    pair that is not hexadecimal. *)
Lemma add_polygons_bad_colour (polygons : list geometry) (color : string)
      (opacity : float) :
  existsb is_polygon polygons = true ->
  py_int16 (Str.slice 1 3 color) = None
  \/ py_int16 (Str.slice 3 5 color) = None
  \/ py_int16 (Str.slice 5 7 color) = None ->
  forall (i : nat) (kml : list feature),
    loop i polygons color opacity kml = Raise ValueError.
Proof.
  intros Hp Hc.
  induction polygons as [|g polygons IH]; intros i kml; simpl in *.
  - discriminate.
  - destruct g as [poly|gs|t]; simpl in *; try now apply IH.
    unfold area_polygon, int16, or_raise.
    destruct (py_int16 (Str.slice 1 3 color)) as [r|]; [|reflexivity].
    destruct (py_int16 (Str.slice 3 5 color)) as [g|]; [|reflexivity].
    destruct (py_int16 (Str.slice 5 7 color)) as [b|]; [|reflexivity].
    destruct Hc as [Hc|[Hc|Hc]]; discriminate.
Qed.

(** X10. When the list holds a Polygon and one of the three pairs of
    digits of the colour is refused by int(_, 16), the writer raises
    ValueError and returns no document, not even the markers. *)
Theorem create_output_kml_bad_colour (polygons : list geometry)
        (placemarks : list placemark) (radius : float) (color : string)
        (opacity : float) :
  existsb is_polygon polygons = true ->
  py_int16 (Str.slice 1 3 color) = None
  \/ py_int16 (Str.slice 3 5 color) = None
  \/ py_int16 (Str.slice 5 7 color) = None ->
  writer polygons placemarks radius color opacity = Raise ValueError.
Proof.
  intros Hp Hc. unfold create_output_kml.
  now apply add_polygons_bad_colour.
Qed.

(** X11. In a document the writer returned, the area entities follow the
    markers and stand for the elements of the list that are Polygons, in
    order; each is numbered by the position of its polygon in the whole
    list, so that an element of another type leaves a gap in the
    numbering; the document has one entity per original point and per
    Polygon. *)
Theorem create_output_kml_positions (polygons : list geometry)
        (placemarks : list placemark) (radius : float) (color : string)
        (opacity : float) (kml : list feature) :
  writer polygons placemarks radius color opacity = Ok kml ->
  (exists areas,
      kml = map original_point placemarks ++ map FPolygon areas
      /\ Forall2 area_at (indexed_polygons 0 polygons) areas)
  /\ (forall i poly,
         In (i, poly) (indexed_polygons 0 polygons)
         <-> nth_error polygons i = Some (GPolygon poly))
  /\ length kml
     = (length placemarks + length (filter is_polygon polygons))%nat.
Proof.
  intros H. unfold create_output_kml in H.
  destruct (add_polygons_ok _ _ _ _ _ _ H) as (areas & -> & Hareas).
  split; [eauto|]. split.
  - intros i poly. rewrite indexed_polygons_nth, Nat.sub_0_r.
    split; [tauto | intros; split; [lia | assumption]].
  - rewrite length_app, !length_map.
    rewrite <- (Forall2_length Hareas). f_equal.
    clear. generalize 0%nat.
    induction polygons as [|[p|gs|t] polygons IH]; intros i; simpl; auto.
Qed.

Lemma area_rings_markers (placemarks : list placemark) :
  area_rings (map original_point placemarks) = [].
Proof. induction placemarks; simpl; auto. Qed.

Lemma area_rings_areas (areas : list polygon_feature) :
  area_rings (map FPolygon areas) = map outerboundaryis areas.
Proof.
  induction areas as [|a areas IH]; [reflexivity|].
  unfold area_rings in *; simpl; now rewrite IH.
Qed.

(** X12. Reading back the rings of the area entities of a written
    document and swapping their axes again gives exactly the exterior
    rings of the Polygons given to the writer, in order. *)
Theorem written_rings_round_trip (polygons : list geometry)
        (placemarks : list placemark) (radius : float) (color : string)
        (opacity : float) (kml : list feature) :
  writer polygons placemarks radius color opacity = Ok kml ->
  map (map swap_axes) (area_rings kml)
  = map (fun ip => exterior (snd ip)) (indexed_polygons 0 polygons).
Proof.
  intros H. unfold create_output_kml in H.
  destruct (add_polygons_ok _ _ _ _ _ _ H) as (areas & -> & Hareas).
  unfold area_rings at 1. rewrite flat_map_app.
  fold (area_rings (map original_point placemarks)).
  fold (area_rings (map FPolygon areas)).
  rewrite area_rings_markers, area_rings_areas; simpl. clear H.
  induction Hareas as [|ip a ips areas [_ Hr] _ IH]; simpl; [reflexivity|].
  rewrite IH, Hr, map_map.
  assert (E : map (fun x : float * float => swap_axes (snd x, fst x))
                (exterior (snd ip)) = exterior (snd ip)).
  { rewrite <- (map_id (exterior (snd ip))) at 2.
    apply map_ext; intros [x y]; reflexivity. }
  now rewrite E.
Qed.

(** X13. The writer never looks at the holes of a polygon: a list of
    geometries and the same list with every hole removed give the same
    document, or the same exception. *)
Theorem create_output_kml_ignores_holes (polygons : list geometry)
        (placemarks : list placemark) (radius : float) (color : string)
        (opacity : float) :
  writer (map without_holes polygons) placemarks radius color opacity
  = writer polygons placemarks radius color opacity.
Proof.
  unfold create_output_kml.
  generalize (map original_point placemarks) as kml.
  generalize 0%nat as i.
  induction polygons as [|g polygons IH]; intros i kml; simpl.
  - reflexivity.
  - destruct g as [poly|gs|t]; simpl; try apply IH.
    change (area i (Polygon (exterior poly) []) color opacity)
      with (area i poly color opacity).
    destruct (area i poly color opacity); simpl; [apply IH | reflexivity].
Qed.

End DocumentWriterMore.

(** The document for a point geometry and a MultiPolygon, with a colour
    that is no colour. *)
Lemma create_output_kml_without_polygons_witness :
  forallb (fun g => negb (is_polygon g))
    [GOther Point; GMultiPolygon [Sample.square_a]] = true
  /\ create_output_kml Sample.py_int16 Sample.Color_rgb
       Sample.Color_changealphaint
       [GOther Point; GMultiPolygon [Sample.square_a]] [MoreSample.se]
       40 "no colour" nan
     = Ok [FPoint (NewPoint "Original: Se" [(-46.6, -23.5)] "ffff0000" 0.5)].
Proof.
  assert (H : forallb (fun g => negb (is_polygon g))
                [GOther Point; GMultiPolygon [Sample.square_a]] = true)
    by reflexivity.
  split; [exact H|].
  exact (create_output_kml_without_polygons Sample.py_int16 Sample.Color_rgb
           Sample.Color_changealphaint _ [MoreSample.se] 40 "no colour" nan H).
Defined.

(** The colour "red" for one square: its slice [3:5] is empty. *)
Lemma create_output_kml_bad_colour_witness :
  (existsb is_polygon [GPolygon Sample.square_a] = true
   /\ (Sample.py_int16 (Str.slice 1 3 "red") = None
       \/ Sample.py_int16 (Str.slice 3 5 "red") = None
       \/ Sample.py_int16 (Str.slice 5 7 "red") = None))
  /\ create_output_kml Sample.py_int16 Sample.Color_rgb
       Sample.Color_changealphaint [GPolygon Sample.square_a]
       [MoreSample.se] 40 "red" 0.3
     = Raise ValueError.
Proof.
  assert (H : existsb is_polygon [GPolygon Sample.square_a] = true
              /\ (Sample.py_int16 (Str.slice 1 3 "red") = None
                  \/ Sample.py_int16 (Str.slice 3 5 "red") = None
                  \/ Sample.py_int16 (Str.slice 5 7 "red") = None)).
  { split; [reflexivity | right; left; reflexivity]. }
  split; [exact H|].
  destruct H as [H1 H2].
  exact (create_output_kml_bad_colour Sample.py_int16 Sample.Color_rgb
           Sample.Color_changealphaint _ [MoreSample.se] 40 "red" 0.3 H1 H2).
Defined.

(** The numbering of [MoreSample.mixed]: "Área 1" and "Área 3". *)
Lemma create_output_kml_positions_witness :
  create_output_kml Sample.py_int16 Sample.Color_rgb
    Sample.Color_changealphaint MoreSample.mixed [MoreSample.se]
    40 "#FF0000" 0.3
  = Ok MoreSample.mixed_kml
  /\ length MoreSample.mixed_kml
     = (length [MoreSample.se]
        + length (filter is_polygon MoreSample.mixed))%nat.
Proof.
  assert (H : create_output_kml Sample.py_int16 Sample.Color_rgb
                Sample.Color_changealphaint MoreSample.mixed [MoreSample.se]
                40 "#FF0000" 0.3
              = Ok MoreSample.mixed_kml) by reflexivity.
  split; [exact H|].
  exact (proj2 (proj2 (create_output_kml_positions Sample.py_int16
                         Sample.Color_rgb Sample.Color_changealphaint
                         _ _ _ _ _ _ H))).
Defined.

(** The rings read back from [MoreSample.mixed_kml]. *)
Lemma written_rings_round_trip_witness :
  create_output_kml Sample.py_int16 Sample.Color_rgb
    Sample.Color_changealphaint MoreSample.mixed [MoreSample.se]
    40 "#FF0000" 0.3
  = Ok MoreSample.mixed_kml
  /\ map (map swap_axes) (area_rings MoreSample.mixed_kml)
     = [exterior Sample.square_a; exterior Sample.square_b].
Proof.
  assert (H : create_output_kml Sample.py_int16 Sample.Color_rgb
                Sample.Color_changealphaint MoreSample.mixed [MoreSample.se]
                40 "#FF0000" 0.3
              = Ok MoreSample.mixed_kml) by reflexivity.
  split; [exact H|].
  exact (written_rings_round_trip Sample.py_int16 Sample.Color_rgb
           Sample.Color_changealphaint _ _ _ _ _ _ H).
Defined.

(** ** The processing step *)

Section ProcessingFacts.

Variable libm_cos : float -> float.
Variable unary_union : list polygon -> result geometry.
Variable py_int16 : string -> option Z.
Variable Color_rgb : Z -> Z -> Z -> string.
Variable Color_changealphaint : Z -> string -> string.

Local Abbreviation process :=
  (process_placemarks libm_cos unary_union py_int16 Color_rgb
     Color_changealphaint).

Lemma kml_coords_swap (coords : list coord) :
  kml_coords coords = map swap_axes coords.
Proof.
  unfold kml_coords; apply map_ext; intros [lat lon]; reflexivity.
Qed.

(** The first loop, when it ends well, has appended the square of each
    placemark, in order. *)
Lemma buffer_placemarks_ok (placemarks : list placemark) (raio : float) :
  forall acc polys,
    buffer_placemarks libm_cos placemarks raio acc = Ok polys ->
    exists squares,
      polys = acc ++ squares
      /\ Forall2 (buffered libm_cos raio) placemarks squares.
Proof.
  induction placemarks as [|pm pms IH]; intros acc polys H; simpl in H.
  - injection H as <-. exists []; split; [now rewrite List.app_nil_r|].
    constructor.
  - destruct (create_square_polygon libm_cos (PM.lat pm) (PM.lon pm) raio)
      as [sq|e] eqn:E; simpl in H; [|discriminate].
    destruct (IH _ _ H) as (squares & -> & Hs).
    exists (sq :: squares); split; [now rewrite <- List.app_assoc|].
    constructor; assumption.
Qed.

(** The first loop stops at the first placemark whose square raises. *)
Lemma buffer_placemarks_stops (before after : list placemark)
      (pm : placemark) (raio : float) (e : exn) :
  Forall (fun p => is_ok (create_square_polygon libm_cos (PM.lat p)
                            (PM.lon p) raio) = true) before ->
  create_square_polygon libm_cos (PM.lat pm) (PM.lon pm) raio = Raise e ->
  forall acc,
    buffer_placemarks libm_cos (before ++ pm :: after) raio acc = Raise e.
Proof.
  induction 1 as [|b before Hb _ IH]; intros He acc; simpl.
  - now rewrite He.
  - destruct (create_square_polygon libm_cos (PM.lat b) (PM.lon b) raio);
      [|discriminate]. simpl. now apply IH.
Qed.

(** X14. When the processing step succeeds, the polygons it stores are the
    merge of one square per placemark, taken in order with the slider's
    radius, the errors reported are those of the merge, and the document
    holds one marker per placemark followed by one area entity per merged
    polygon. *)
Theorem process_placemarks_composes (placemarks : list placemark)
        (raio : float) (cor_poligono : string) (opacidade : float)
        (out : processed) (reported : list st_event) :
  process placemarks raio cor_poligono opacidade = (Ok out, reported) ->
  exists squares areas,
    Forall2 (buffered libm_cos raio) placemarks squares
    /\ merge_intersecting_polygons unary_union squares
       = (merged_polygons out, reported)
    /\ output_kml out = map original_point placemarks ++ map FPolygon areas
    /\ length areas = length (merged_polygons out).
Proof.
  unfold process_placemarks. intros H.
  destruct (buffer_placemarks libm_cos placemarks raio []) as [polys|e]
    eqn:B; [|discriminate].
  destruct (buffer_placemarks_ok _ _ _ _ B) as (squares & -> & Hs).
  simpl in H.
  destruct (merge_intersecting_polygons unary_union squares)
    as [merged log] eqn:M.
  destruct (create_output_kml py_int16 Color_rgb Color_changealphaint
              (map GPolygon merged) placemarks raio cor_poligono opacidade)
    as [kml|e] eqn:W; simpl in H; [|discriminate].
  injection H as <- <-. simpl.
  unfold create_output_kml in W.
  destruct (add_polygons_ok _ _ _ _ _ _ _ _ _ W) as (areas & -> & Ha).
  exists squares, areas. repeat split; auto.
  apply Forall2_length in Ha. rewrite <- Ha.
  clear. generalize 0%nat.
  induction merged as [|m merged IH]; intros i; simpl; auto.
Qed.

(** X15. For a single placemark whose square is built, and a colour and
    opacity the writer accepts, the step stores that square alone and
    writes one marker and the area "Área 1" with the square's ring, axes
    swapped; the union is not consulted and nothing is reported. *)
Theorem process_single_placemark (pm : placemark) (raio : float)
        (cor_poligono : string) (opacidade : float) (square : polygon)
        (r g b alpha : Z) :
  create_square_polygon libm_cos (PM.lat pm) (PM.lon pm) raio = Ok square ->
  py_int16 (Str.slice 1 3 cor_poligono) = Some r ->
  py_int16 (Str.slice 3 5 cor_poligono) = Some g ->
  py_int16 (Str.slice 5 7 cor_poligono) = Some b ->
  int_of_float (opacidade * 255) = Ok alpha ->
  process [pm] raio cor_poligono opacidade
  = (Ok (Processed [square]
           [ original_point pm;
             FPolygon (NewPolygon "Área 1" (Color_rgb r g b) 2
                         (Color_changealphaint alpha (Color_rgb r g b))
                         (map swap_axes (exterior square))) ]),
     []).
Proof.
  intros Hs Hr Hg Hb Ha.
  unfold process_placemarks; simpl. rewrite Hs; simpl.
  unfold create_output_kml; simpl.
  rewrite (area_polygon_styled py_int16 Color_rgb Color_changealphaint
             cor_poligono opacidade r g b alpha Hr Hg Hb Ha); simpl.
  fold (kml_coords (exterior square)).
  now rewrite kml_coords_swap.
Qed.

(** X16. When the square of a placemark raises, and those of the
    placemarks before it do not, the step ends with that exception before
    any union or writing: nothing is stored and nothing is reported. *)
Theorem process_stops_at_first_failure (before after : list placemark)
        (pm : placemark) (raio : float) (cor_poligono : string)
        (opacidade : float) (e : exn) :
  Forall (fun p => is_ok (create_square_polygon libm_cos (PM.lat p)
                            (PM.lon p) raio) = true) before ->
  create_square_polygon libm_cos (PM.lat pm) (PM.lon pm) raio = Raise e ->
  process (before ++ pm :: after) raio cor_poligono opacidade
  = (Raise e, []).
Proof.
  intros Hb He. unfold process_placemarks.
  now rewrite (buffer_placemarks_stops before after pm raio e Hb He).
Qed.

(** X17. For a finite radius and placemarks the buffer accepts, the first
    loop builds one polygon per placemark, each a ring of exactly five
    coordinates without holes. *)
Theorem buffer_placemarks_squares (placemarks : list placemark)
        (raio : float) :
  is_finite raio = true ->
  Forall (bufferable libm_cos) placemarks ->
  exists squares,
    buffer_placemarks libm_cos placemarks raio [] = Ok squares
    /\ length squares = length placemarks
    /\ Forall (fun sq => length (exterior sq) = 5%nat /\ interiors sq = [])
         squares.
Proof.
  intros Hr H.
  assert (G : forall acc,
             Forall (fun sq => length (exterior sq) = 5%nat
                               /\ interiors sq = []) acc ->
             exists squares,
               buffer_placemarks libm_cos placemarks raio acc = Ok squares
               /\ length squares = (length acc + length placemarks)%nat
               /\ Forall (fun sq => length (exterior sq) = 5%nat
                                    /\ interiors sq = []) squares).
  { induction H as [|pm pms (Hlo & Hhi & Hlon & Hc) _ IH]; intros acc Hacc;
      simpl.
    - exists acc; repeat split; auto.
    - assert (Hlat : sf_finite (Prim2SF (PM.lat pm))).
      { apply (FloatFacts.between_Prim2SF (-90) 90); auto; vm_compute;
          exact I. }
      rewrite (create_square_polygon_finite libm_cos _ _ _ Hlat Hlon Hr Hc).
      simpl.
      destruct (IH (acc ++ [Polygon
                              (square_vertices (PM.lat pm) (PM.lon pm)
                                 (raio / 111000)
                                 (raio / (111000
                                          * libm_cos
                                              (Math.radians (PM.lat pm)))))
                              []]))
        as (squares & E & L & F).
      + apply Forall_app; split; [exact Hacc|].
        constructor; [split; reflexivity | constructor].
      + exists squares; repeat split; auto.
        rewrite L, length_app; simpl; lia. }
  destruct (G [] (Forall_nil _)) as (squares & E & L & F).
  exists squares; auto.
Qed.

End ProcessingFacts.

(** The step for two distant points. *)
Lemma process_placemarks_composes_witness :
  process_placemarks Sample.libm_cos Sample.union_of_disjoint
    Sample.py_int16 Sample.Color_rgb Sample.Color_changealphaint
    [MoreSample.se; MorePlacemarks.origin] 40 "#FF0000" 0.3
  = (Ok MorePlacemarks.two_points, [])
  /\ exists squares areas,
       Forall2 (buffered Sample.libm_cos 40)
         [MoreSample.se; MorePlacemarks.origin] squares
       /\ merge_intersecting_polygons Sample.union_of_disjoint squares
          = (merged_polygons MorePlacemarks.two_points, [])
       /\ output_kml MorePlacemarks.two_points
          = map original_point [MoreSample.se; MorePlacemarks.origin]
            ++ map FPolygon areas
       /\ length areas = length (merged_polygons MorePlacemarks.two_points).
Proof.
  assert (H : process_placemarks Sample.libm_cos Sample.union_of_disjoint
                Sample.py_int16 Sample.Color_rgb Sample.Color_changealphaint
                [MoreSample.se; MorePlacemarks.origin] 40 "#FF0000" 0.3
              = (Ok MorePlacemarks.two_points, [])) by (vm_compute; reflexivity).
  split; [exact H|].
  exact (process_placemarks_composes Sample.libm_cos Sample.union_of_disjoint
           Sample.py_int16 Sample.Color_rgb Sample.Color_changealphaint
           _ _ _ _ _ _ H).
Defined.

(** The step for the single point [MoreSample.se]. *)
Lemma process_single_placemark_witness :
  (create_square_polygon Sample.libm_cos (PM.lat MoreSample.se)
     (PM.lon MoreSample.se) 40 = Ok MorePlacemarks.se_square
   /\ Sample.py_int16 (Str.slice 1 3 "#FF0000") = Some 255%Z
   /\ Sample.py_int16 (Str.slice 3 5 "#FF0000") = Some 0%Z
   /\ Sample.py_int16 (Str.slice 5 7 "#FF0000") = Some 0%Z
   /\ int_of_float (0.3 * 255) = Ok 76%Z)
  /\ process_placemarks Sample.libm_cos Sample.union_raising
       Sample.py_int16 Sample.Color_rgb Sample.Color_changealphaint
       [MoreSample.se] 40 "#FF0000" 0.3
     = (Ok (Processed [MorePlacemarks.se_square]
              [ FPoint (NewPoint "Original: Se" [(-46.6, -23.5)]
                          "ffff0000" 0.5);
                FPolygon (NewPolygon "Área 1" "ff0000ff" 2 "4c0000ff"
                            [ (-46.600392951749214, -23.50036036036036);
                              (-46.59960704825079, -23.50036036036036);
                              (-46.59960704825079, -23.49963963963964);
                              (-46.600392951749214, -23.49963963963964);
                              (-46.600392951749214, -23.50036036036036) ]) ]),
        []).
Proof.
  assert (H : create_square_polygon Sample.libm_cos (PM.lat MoreSample.se)
                (PM.lon MoreSample.se) 40 = Ok MorePlacemarks.se_square
              /\ Sample.py_int16 (Str.slice 1 3 "#FF0000") = Some 255%Z
              /\ Sample.py_int16 (Str.slice 3 5 "#FF0000") = Some 0%Z
              /\ Sample.py_int16 (Str.slice 5 7 "#FF0000") = Some 0%Z
              /\ int_of_float (0.3 * 255) = Ok 76%Z).
  { repeat split; reflexivity. }
  split; [exact H|].
  destruct H as (H1 & H2 & H3 & H4 & H5).
  exact (process_single_placemark Sample.libm_cos Sample.union_raising
           Sample.py_int16 Sample.Color_rgb Sample.Color_changealphaint
           MoreSample.se 40 "#FF0000" 0.3 MorePlacemarks.se_square
           255 0 0 76 H1 H2 H3 H4 H5).
Defined.

(** The step for a point followed by one with an infinite latitude. *)
Lemma process_stops_at_first_failure_witness :
  (Forall (fun p => is_ok (create_square_polygon Sample.libm_cos (PM.lat p)
                             (PM.lon p) 40) = true) [MoreSample.se]
   /\ create_square_polygon Sample.libm_cos
        (PM.lat MorePlacemarks.at_infinity)
        (PM.lon MorePlacemarks.at_infinity) 40 = Raise ValueError)
  /\ process_placemarks Sample.libm_cos Sample.union_of_disjoint
       Sample.py_int16 Sample.Color_rgb Sample.Color_changealphaint
       ([MoreSample.se] ++ MorePlacemarks.at_infinity :: [])
       40 "#FF0000" 0.3
     = (Raise ValueError, []).
Proof.
  assert (H : Forall (fun p => is_ok (create_square_polygon Sample.libm_cos
                                        (PM.lat p) (PM.lon p) 40) = true)
                [MoreSample.se]
              /\ create_square_polygon Sample.libm_cos
                   (PM.lat MorePlacemarks.at_infinity)
                   (PM.lon MorePlacemarks.at_infinity) 40 = Raise ValueError).
  { split; [repeat constructor | reflexivity]. }
  split; [exact H|].
  destruct H as [H1 H2].
  exact (process_stops_at_first_failure Sample.libm_cos
           Sample.union_of_disjoint Sample.py_int16 Sample.Color_rgb
           Sample.Color_changealphaint [MoreSample.se] []
           MorePlacemarks.at_infinity 40 "#FF0000" 0.3 ValueError H1 H2).
Defined.

(** The squares of two points the buffer accepts. *)
Lemma buffer_placemarks_squares_witness :
  (is_finite 40 = true
   /\ Forall (bufferable Sample.libm_cos)
        [MoreSample.se; MorePlacemarks.origin])
  /\ exists squares,
       buffer_placemarks Sample.libm_cos
         [MoreSample.se; MorePlacemarks.origin] 40 [] = Ok squares
       /\ length squares = 2%nat
       /\ Forall (fun sq => length (exterior sq) = 5%nat
                            /\ interiors sq = []) squares.
Proof.
  assert (H : is_finite 40 = true
              /\ Forall (bufferable Sample.libm_cos)
                   [MoreSample.se; MorePlacemarks.origin]).
  { split; [reflexivity|].
    repeat constructor; reflexivity. }
  split; [exact H|].
  destruct H as [H1 H2].
  exact (buffer_placemarks_squares Sample.libm_cos
           [MoreSample.se; MorePlacemarks.origin] 40 H1 H2).
Defined.

(** ** Dependency check *)

Section PackagesFacts.

Variable find_spec : string -> result bool.
Variable found : string -> bool.

Lemma collect_missing_filter (packages : list string) :
  (forall p, In p packages -> find_spec p = Ok (found p)) ->
  forall acc,
    Packages.collect_missing find_spec packages acc
    = Ok (acc ++ filter (fun p => negb (found p)) packages).
Proof.
  induction packages as [|p packages IH]; intros H acc; simpl.
  - now rewrite List.app_nil_r.
  - rewrite (H p) by (simpl; auto); simpl.
    rewrite IH by (intros q Hq; apply H; simpl; auto).
    destruct (found p); simpl; [reflexivity|].
    now rewrite <- List.app_assoc.
Qed.

(** X18. When every lookup of a required package answers, the check
    returns True and prints nothing if all eight packages are found;
    otherwise it returns False, and the install command it prints names
    exactly the required packages that were not found, in the order of the
    list of requirements. *)
Theorem check_and_install_packages_missing :
  (forall p, In p Packages.required_packages -> find_spec p = Ok (found p)) ->
  let missing :=
    filter (fun p => negb (found p)) Packages.required_packages in
  (forallb found Packages.required_packages = true ->
   Packages.check_and_install_packages find_spec = Ok (true, []))
  /\ (forallb found Packages.required_packages = false ->
      missing <> []
      /\ exists lines,
          Packages.check_and_install_packages find_spec = Ok (false, lines)
          /\ nth_error lines 5
             = Some ("pip install " ++ Packages.join " " missing)%string).
Proof.
  intros H missing. unfold Packages.check_and_install_packages.
  rewrite (collect_missing_filter _ H). cbn [bind app].
  subst missing.
  set (missing := filter (fun p => negb (found p))
                    Packages.required_packages).
  assert (E : forallb found Packages.required_packages = true
              <-> missing = []).
  { subst missing. generalize Packages.required_packages as l.
    induction l as [|p l IH]; simpl; [tauto|].
    destruct (found p); simpl; [exact IH|].
    split; discriminate. }
  split.
  - intros A. apply E in A. rewrite A. reflexivity.
  - intros A.
    assert (N : missing <> []).
    { intros M. apply E in M. congruence. }
    split; [exact N|].
    destruct missing as [|m ms]; [congruence|].
    eexists; split; reflexivity.
Qed.

End PackagesFacts.

(** The check when only folium is missing. *)
Lemma check_and_install_packages_missing_witness :
  (forall p, In p Packages.required_packages ->
             MoreLibrary.find_spec p = Ok (MoreLibrary.found p))
  /\ exists lines,
       Packages.check_and_install_packages MoreLibrary.find_spec
       = Ok (false, lines)
       /\ nth_error lines 5 = Some "pip install folium"%string.
Proof.
  assert (H : forall p, In p Packages.required_packages ->
                MoreLibrary.find_spec p = Ok (MoreLibrary.found p))
    by reflexivity.
  split; [exact H|].
  exact (proj2 (proj2 (check_and_install_packages_missing
                         MoreLibrary.find_spec MoreLibrary.found H)
                      eq_refl)).
Defined.

(** ** Map view *)

Section MapViewFacts.

Variable py_sum : list float -> float.

Lemma folium_coords_same (coords : list coord) :
  folium_coords coords = coords.
Proof.
  unfold folium_coords. rewrite <- (map_id coords) at 2.
  apply map_ext; intros [lat lon]; reflexivity.
Qed.

Lemma polygon_layers_indexed (polygons : list geometry) (color : string)
      (opacity : float) :
  forall i,
    Forall2 layer_at (indexed_polygons i polygons)
      (polygon_layers i polygons color opacity).
Proof.
  induction polygons as [|[poly|gs|t] polygons IH]; intros i; simpl; auto.
  constructor; [|apply IH].
  split; [reflexivity | apply folium_coords_same].
Qed.

Lemma polygon_layers_length (polygons : list geometry) (color : string)
      (opacity : float) :
  forall i,
    length (polygon_layers i polygons color opacity)
    = length (filter is_polygon polygons).
Proof.
  induction polygons as [|[p|gs|t] polygons IH]; intros i; simpl; auto.
Qed.

(** X19. The map view is None exactly for an empty list of polygons,
    even when there are placemarks; a map it returns has zoom 15, one
    marker per placemark and one layer per element that is a Polygon. *)
Theorem create_folium_map_none_iff (polygons : list geometry)
        (placemarks : list placemark) (color : string) (opacity : float) :
  (create_folium_map py_sum polygons placemarks color opacity = None
   <-> polygons = [])
  /\ forall m,
      create_folium_map py_sum polygons placemarks color opacity = Some m ->
      Folium.zoom_start m = 15%Z
      /\ length (Folium.markers m) = length placemarks
      /\ length (Folium.layers m) = length (filter is_polygon polygons).
Proof.
  unfold create_folium_map.
  destruct polygons as [|g polygons].
  - split; [tauto | discriminate].
  - split; [split; discriminate|].
    intros m H; injection H as <-.
    cbn [Folium.zoom_start Folium.markers Folium.layers].
    split; [reflexivity|]. split; [apply length_map|].
    exact (polygon_layers_length (g :: polygons) color opacity 0).
Qed.

Lemma area_entities_document (placemarks : list placemark)
      (areas : list polygon_feature) :
  area_entities (map original_point placemarks ++ map FPolygon areas)
  = areas.
Proof.
  unfold area_entities. rewrite flat_map_app.
  assert (M : forall pms, flat_map (fun f => match f with
                                              | FPolygon a => [a]
                                              | FPoint _ => []
                                              end)
                            (map original_point pms) = []).
  { induction pms; simpl; auto. }
  rewrite M; simpl.
  induction areas as [|a areas IH]; simpl; [reflexivity | now rewrite IH].
Qed.

Lemma layers_and_areas (ips : list (nat * polygon)) :
  forall (layers : list Folium.polygon_layer) (areas : list polygon_feature),
    Forall2 layer_at ips layers -> Forall2 area_at ips areas ->
    Forall2 same_area layers areas.
Proof.
  induction ips as [|ip ips IH]; intros layers areas Hl Ha;
    inversion Hl; inversion Ha; subst; constructor.
  - match goal with
    | L : layer_at ip ?l, A : area_at ip ?a |- same_area ?l ?a =>
        destruct L as [L1 L2]; destruct A as [A1 A2];
        split; [congruence | now rewrite A2, L2]
    end.
  - now apply IH.
Qed.

(** X20. The map and the document made from the same list show the same
    polygons: the layers of the map and the area entities of the document
    correspond one to one, with the same "Área i" label, the map holding
    each ring as (latitude, longitude) and the document the same ring as
    (longitude, latitude). *)
Theorem map_and_document_agree
        (py_int16 : string -> option Z) (Color_rgb : Z -> Z -> Z -> string)
        (Color_changealphaint : Z -> string -> string)
        (polygons : list geometry) (placemarks : list placemark)
        (radius : float) (color : string) (opacity : float)
        (kml : list feature) (m : Folium.map) :
  create_output_kml py_int16 Color_rgb Color_changealphaint polygons
    placemarks radius color opacity = Ok kml ->
  create_folium_map py_sum polygons placemarks color opacity = Some m ->
  Forall2 same_area (Folium.layers m) (area_entities kml).
Proof.
  intros W M. unfold create_output_kml in W.
  destruct (add_polygons_ok _ _ _ _ _ _ _ _ _ W) as (areas & -> & Ha).
  rewrite area_entities_document.
  unfold create_folium_map in M.
  destruct polygons as [|g polygons]; [discriminate|].
  injection M as <-; simpl Folium.layers.
  exact (layers_and_areas _ _ _
           (polygon_layers_indexed (g :: polygons) color opacity 0) Ha).
Qed.

End MapViewFacts.

(** The map and the document of [MoreSample.mixed]. *)
Lemma map_and_document_agree_witness :
  (create_output_kml Sample.py_int16 Sample.Color_rgb
     Sample.Color_changealphaint MoreSample.mixed [MoreSample.se]
     40 "#FF0000" 0.3
   = Ok MoreSample.mixed_kml
   /\ create_folium_map MoreLibrary.sum_left MoreSample.mixed
        [MoreSample.se] "#FF0000" 0.3
      = Some (Folium.Map (-23.5, -46.6) 15
                [Folium.Marker (-23.5, -46.6) "<b>Se</b><br>" "blue"
                   "info-sign"]
                [ Folium.PolygonLayer (exterior Sample.square_a) "Área 1"
                    "#FF0000" 2 true "#FF0000" 0.3;
                  Folium.PolygonLayer (exterior Sample.square_b) "Área 3"
                    "#FF0000" 2 true "#FF0000" 0.3 ]))
  /\ Forall2 same_area
       [ Folium.PolygonLayer (exterior Sample.square_a) "Área 1"
           "#FF0000" 2 true "#FF0000" 0.3;
         Folium.PolygonLayer (exterior Sample.square_b) "Área 3"
           "#FF0000" 2 true "#FF0000" 0.3 ]
       (area_entities MoreSample.mixed_kml).
Proof.
  assert (H : create_output_kml Sample.py_int16 Sample.Color_rgb
                Sample.Color_changealphaint MoreSample.mixed [MoreSample.se]
                40 "#FF0000" 0.3
              = Ok MoreSample.mixed_kml
              /\ create_folium_map MoreLibrary.sum_left MoreSample.mixed
                   [MoreSample.se] "#FF0000" 0.3
                 = Some (Folium.Map (-23.5, -46.6) 15
                           [Folium.Marker (-23.5, -46.6) "<b>Se</b><br>"
                              "blue" "info-sign"]
                           [ Folium.PolygonLayer (exterior Sample.square_a)
                               "Área 1" "#FF0000" 2 true "#FF0000" 0.3;
                             Folium.PolygonLayer (exterior Sample.square_b)
                               "Área 3" "#FF0000" 2 true "#FF0000" 0.3 ])).
  { split; reflexivity. }
  split; [exact H|].
  destruct H as [H1 H2].
  exact (map_and_document_agree MoreLibrary.sum_left Sample.py_int16
           Sample.Color_rgb Sample.Color_changealphaint _ _ _ _ _ _ _
           H1 H2).
Defined.
